(** * Galaxy classification notebook: a shallow embedding

    The notebook [random_forest.ipynb] defines four functions
    ([generate_features_targets], [calculate_accuracy],
    [plot_confusion_matrix], [rf_predict_actual]) and a main script.
    This development embeds them as Rocq functions and proves the
    properties stated about them.

    Conventions of the embedding:
    - a numpy [float64] is a primitive binary64 float ([PrimFloat.float]),
      an [int64] is a [Z] with the wrap-around written out ([wrap64]);
    - a one-dimensional numpy array is a [list], a two-dimensional one a
      list of rows;
    - a Python exception is a value of type [exn]; code that may raise
      returns a [result];
    - calls that reach outside the interpreter (file system, console,
      matplotlib, scikit-learn's randomised estimator) are answered by a
      [runtime] and recorded, in order, in a trace of [event]s;
    - the [import] statements of the cells are not part of the
      embedding. *)

From Stdlib Require Import String Ascii.
From Stdlib Require Import List ZArith NArith Bool Lia.
From Stdlib Require Import Permutation.
From Stdlib Require Import Floats.
Import ListNotations.

Set Implicit Arguments.
Unset Strict Implicit.

Local Open Scope Z_scope.

(* ===================================================================== *)
(** * Exceptions and results                                              *)
(* ===================================================================== *)

(** A Python exception: the name of its class and its message. *)
Record exn : Type := PyExc { exc_type : string; exc_msg : string }.

Definition ZeroDivisionError : exn :=
  PyExc "ZeroDivisionError" "division by zero".
Definition ValueError (msg : string) : exn := PyExc "ValueError" msg.
Definition TypeError (msg : string) : exn := PyExc "TypeError" msg.

Inductive result (A : Type) : Type :=
| Ok (a : A)
| Err (e : exn).
Arguments Ok {A} a.
Arguments Err {A} e.

Module Res.
Definition bind {A B} (r : result A) (k : A -> result B) : result B :=
  match r with
  | Ok a => k a
  | Err e => Err e
  end.

(** [mapM]: the left-to-right traversal, stopping at the first failure. *)
Fixpoint mapM {A B} (f : A -> result B) (xs : list A) : result (list B) :=
  match xs with
  | [] => Ok []
  | x :: t => bind (f x) (fun y => bind (mapM f t) (fun ys => Ok (y :: ys)))
  end.
End Res.

Declare Scope res_scope.
Delimit Scope res_scope with res.
Notation "x <- e ;; k" := (Res.bind e (fun x => k))
  (at level 61, e at next level, right associativity) : res_scope.
Notation "' pat <- e ;; k" := (Res.bind e (fun x => match x with pat => k end))
  (at level 61, pat pattern, e at next level, right associativity) : res_scope.

(* ===================================================================== *)
(** * Numbers                                                             *)
(* ===================================================================== *)

(** Two's-complement wrap-around of a 64-bit signed integer. *)
Definition wrap64 (z : Z) : Z := (z + 2 ^ 63) mod 2 ^ 64 - 2 ^ 63.

(** Conversion of an integer to [float64], rounding to nearest even. *)
Definition float_of_Z (z : Z) : float :=
  SF2Prim (binary_normalize prec emax z 0 false).

(** The scalars the notebook computes with.  Python's own [int] and
    numpy's [int64] behave differently under [/]: dividing by zero raises
    for the former and yields [inf] or [nan] for the latter.  Python's
    own [float] is the same binary64 as numpy's [float64] and is not told
    apart from it. *)
Inductive scalar : Type :=
| PyInt (z : Z)
| NpInt64 (z : Z)
| NpFloat64 (f : float).

Definition to_float (s : scalar) : float :=
  match s with
  | PyInt z | NpInt64 z => float_of_Z z
  | NpFloat64 f => f
  end.

(** [a + b] where [b] is a numpy boolean: a Python [int] is promoted to
    [int64]. *)
Definition add_bool (a : scalar) (b : bool) : scalar :=
  match a with
  | PyInt z | NpInt64 z => NpInt64 (wrap64 (z + Z.b2z b))
  | NpFloat64 f => NpFloat64 (f + float_of_Z (Z.b2z b))
  end.

(** The builtin [sum] over a boolean array: a left fold of [+] from the
    Python integer [0]. *)
Definition py_sum (bs : list bool) : scalar := fold_left add_bool bs (PyInt 0).

(** [len] of a sequence, a Python [int]. *)
Definition py_len {A} (xs : list A) : scalar := PyInt (Z.of_nat (length xs)).

(** True division [a / b].  Only between two Python integers does a zero
    divisor raise; as soon as a numpy scalar takes part the quotient is
    the IEEE one.  (Between two Python integers the notebook only ever
    divides [0], so the quotient of the two conversions is the exact
    result.) *)
Definition truediv (a b : scalar) : result scalar :=
  match a, b with
  | PyInt _, PyInt 0 => Err ZeroDivisionError
  | _, _ => Ok (NpFloat64 (to_float a / to_float b))
  end.

(* ===================================================================== *)
(** * Strings and fixed-width string cells                                *)
(* ===================================================================== *)

(** A character is a Unicode code point, a string a sequence of them. *)
Definition char := N.
Definition str := list char.

Definition NUL : char := 0%N.

Definition chars_of (s : string) : str :=
  map (fun a => N_of_ascii a) (list_ascii_of_string s).

Definition str_eq_dec : forall a b : str, {a = b} + {a <> b} :=
  list_eq_dec N.eq_dec.

Definition str_eqb (a b : str) : bool :=
  if str_eq_dec a b then true else false.

(** A cell of dtype [<Uw] holds exactly [w] code points: a longer value
    loses its tail, a shorter one is padded with NUL.  Reading a cell
    drops the NULs at its end. *)
Definition U_store (w : nat) (s : str) : str :=
  firstn w s ++ repeat NUL (w - length s).

Fixpoint rstrip_nul (s : str) : str :=
  match s with
  | [] => []
  | c :: t =>
      match rstrip_nul t with
      | [] => if N.eqb c NUL then [] else [c]
      | t' => c :: t'
      end
  end.

Definition U_load (cell : str) : str := rstrip_nul cell.

(** What an element reads back as after being assigned into a [<Uw]
    array. *)
Definition U_cast (w : nat) (s : str) : str := U_load (U_store w s).

(* ===================================================================== *)
(** * One-dimensional arrays and broadcasting                             *)
(* ===================================================================== *)

(** What numpy raises when two shapes do not fit.  (Releases before
    1.25 let a comparison of misfitting arrays return a single [False],
    on which the builtin [sum] raised a TypeError instead; either way the
    caller gets an exception that is not a division by zero.) *)
Definition broadcast_error : exn :=
  ValueError "operands could not be broadcast together".

(** Elementwise binary operation on two one-dimensional arrays: equal
    lengths pair up, an array of length one is stretched, anything else
    raises. *)
Definition broadcast2 {A B C} (f : A -> B -> C) (xs : list A) (ys : list B)
  : result (list C) :=
  if Nat.eqb (length xs) (length ys) then
    Ok (map (fun p => f (fst p) (snd p)) (combine xs ys))
  else
    match xs, ys with
    | [x], _ => Ok (map (f x) ys)
    | _, [y] => Ok (map (fun x => f x y) xs)
    | _, _ => Err broadcast_error
    end.

(** Assignment of a one-dimensional array to a slice of [n] cells. *)
Definition broadcast_to {A} (n : nat) (xs : list A) : result (list A) :=
  if Nat.eqb (length xs) n then Ok xs
  else
    match xs with
    | [x] => Ok (repeat x n)
    | _ => Err broadcast_error
    end.

(** [a == b] on arrays of strings. *)
Definition np_equal (a b : list str) : result (list bool) :=
  broadcast2 str_eqb a b.

(* ===================================================================== *)
(** * [calculate_accuracy]                                                *)
(* ===================================================================== *)

Local Open Scope res_scope.

(** [return sum(actual_classes[:] == predicted_classes[:]) / len(actual_classes)] *)
Definition calculate_accuracy (predicted_classes actual_classes : list str)
  : result scalar :=
  eq <- np_equal actual_classes predicted_classes ;;
  truediv (py_sum eq) (py_len actual_classes).


(* ===================================================================== *)
(** * The galaxy catalogue: a structured array                            *)
(* ===================================================================== *)

(** A field of a structured array read as a column: [float64] values or
    unicode strings (the dtypes of the catalogue's fields). *)
Inductive column : Type :=
| FloatCol (xs : list float)
| StrCol (xs : list str).

(** A one-dimensional structured array: its length and its named
    fields. *)
Record recarray : Type := {
  nrows : nat;
  fields : list (string * column)
}.

(** What numpy leaves to the platform: the contents of freshly allocated
    memory ([np.empty]) and the conversions between strings and floats
    that an assignment across dtypes performs. *)
Record numpy_rt : Type := {
  garbage_float : nat -> nat -> float;
  garbage_str : nat -> str;
  parse_float : str -> result float;
  repr_float : float -> str
}.

(** [data[name]] *)
Definition getitem (data : recarray) (name : string) : result column :=
  match find (fun p => String.eqb (fst p) name) (fields data) with
  | Some p => Ok (snd p)
  | None => Err (ValueError ("no field of name " ++ name))
  end.

(** [np.empty(shape=(n), dtype='<U20')] and [np.empty(shape=(n, m))] *)
Definition np_empty_U (np : numpy_rt) (n : nat) : list str :=
  map (garbage_str np) (seq 0 n).

Definition np_empty2 (np : numpy_rt) (n m : nat) : list (list float) :=
  map (fun i => map (garbage_float np i) (seq 0 m)) (seq 0 n).

(** The values of a column as a [<Uw] array would hold them, and as a
    [float64] array would. *)
Definition astype_U (np : numpy_rt) (w : nat) (c : column) : list str :=
  match c with
  | StrCol xs => map (U_cast w) xs
  | FloatCol xs => map (fun f => U_cast w (repr_float np f)) xs
  end.

Definition astype_float (np : numpy_rt) (c : column) : result (list float) :=
  match c with
  | FloatCol xs => Ok xs
  | StrCol xs => Res.mapM (parse_float np) xs
  end.

(** [arr[:] = c] for a [<Uw] array [arr]. *)
Definition setitem_all_U (np : numpy_rt) (w : nat) (arr : list str) (c : column)
  : result (list str) :=
  broadcast_to (length arr) (astype_U np w c).

(** Replacement of the cell at index [k] of a row (the index is always in
    range in this program). *)
Fixpoint list_set {A} (k : nat) (v : A) (l : list A) : list A :=
  match l, k with
  | [], _ => []
  | _ :: t, O => v :: t
  | x :: t, S k' => x :: list_set k' v t
  end.

(** [arr[:, k] = c] for a two-dimensional [float64] array [arr]. *)
Definition setitem_col (np : numpy_rt) (arr : list (list float)) (k : nat)
  (c : column) : result (list (list float)) :=
  vs <- astype_float np c ;;
  vs <- broadcast_to (length arr) vs ;;
  Ok (map (fun p => list_set k (snd p) (fst p)) (combine arr vs)).

(** [a / b] on two columns. *)
Definition col_truediv (a b : column) : result column :=
  match a, b with
  | FloatCol xs, FloatCol ys =>
      q <- broadcast2 PrimFloat.div xs ys ;; Ok (FloatCol q)
  | _, _ => Err (TypeError "ufunc 'divide' not supported for the input types")
  end.

(* ===================================================================== *)
(** * [generate_features_targets]                                         *)
(* ===================================================================== *)

(** The targets are allocated and assigned first, then the feature
    matrix is allocated and its thirteen columns are assigned one after
    the other; the right-hand side of an assignment is evaluated before
    the assignment. *)
Definition generate_features_targets (np : numpy_rt) (data : recarray)
  : result (list (list float) * list str) :=
  let output_targets := np_empty_U np (nrows data) in
  c <- getitem data "class" ;;
  output_targets <- setitem_all_U np 20 output_targets c ;;
  let input_features := np_empty2 np (nrows data) 13 in
  c <- getitem data "u-g" ;;
  input_features <- setitem_col np input_features 0 c ;;
  c <- getitem data "g-r" ;;
  input_features <- setitem_col np input_features 1 c ;;
  c <- getitem data "r-i" ;;
  input_features <- setitem_col np input_features 2 c ;;
  c <- getitem data "i-z" ;;
  input_features <- setitem_col np input_features 3 c ;;
  c <- getitem data "ecc" ;;
  input_features <- setitem_col np input_features 4 c ;;
  c <- getitem data "m4_u" ;;
  input_features <- setitem_col np input_features 5 c ;;
  c <- getitem data "m4_g" ;;
  input_features <- setitem_col np input_features 6 c ;;
  c <- getitem data "m4_r" ;;
  input_features <- setitem_col np input_features 7 c ;;
  c <- getitem data "m4_i" ;;
  input_features <- setitem_col np input_features 8 c ;;
  c <- getitem data "m4_z" ;;
  input_features <- setitem_col np input_features 9 c ;;
  a <- getitem data "petroR50_u" ;;
  b <- getitem data "petroR90_u" ;;
  c <- col_truediv a b ;;
  input_features <- setitem_col np input_features 10 c ;;
  a <- getitem data "petroR50_r" ;;
  b <- getitem data "petroR90_r" ;;
  c <- col_truediv a b ;;
  input_features <- setitem_col np input_features 11 c ;;
  a <- getitem data "petroR50_z" ;;
  b <- getitem data "petroR90_z" ;;
  c <- col_truediv a b ;;
  input_features <- setitem_col np input_features 12 c ;;
  Ok (input_features, output_targets).

(* ===================================================================== *)
(** * Two-dimensional arrays                                              *)
(* ===================================================================== *)

(** A two-dimensional array of dtype [int64] or [float64], as a list of
    rows. *)
Inductive ndarray2 : Type :=
| IntArr (rows : list (list Z))
| FloatArr (rows : list (list float)).

(** [cm.shape[0]] and [cm.shape[1]] *)
Definition shape0 (cm : ndarray2) : nat :=
  match cm with
  | IntArr rows => length rows
  | FloatArr rows => length rows
  end.

Definition shape1 (cm : ndarray2) : nat :=
  match cm with
  | IntArr rows => length (hd [] rows)
  | FloatArr rows => length (hd [] rows)
  end.

(** [cm[i, j]] *)
Definition item (cm : ndarray2) (i j : nat) : scalar :=
  match cm with
  | IntArr rows => NpInt64 (nth j (nth i rows []) 0)
  | FloatArr rows => NpFloat64 (nth j (nth i rows []) nan)
  end.

(** The sum of a row of [int64] cells, wrapping as the machine does. *)
Definition sum_int64 (row : list Z) : Z :=
  fold_left (fun acc x => wrap64 (acc + x)) row 0.

(** [cm.astype('float') / cm.sum(axis=1)[:, np.newaxis]] for a matrix of
    counts: every cell divided by the sum of its row, in [float64]. *)
Definition row_normalize (rows : list (list Z)) : list (list float) :=
  map (fun row =>
         let s := sum_int64 row in
         map (fun x => (float_of_Z x / float_of_Z s)%float) row)
      rows.

(** The larger of two floats as [np.maximum] has it: a [nan] wins. *)
Definition fmax_nan (a b : float) : float :=
  if is_nan a then a
  else if is_nan b then b
  else if (a <? b)%float then b else a.

Definition zero_size_error : exn :=
  ValueError
    "zero-size array to reduction operation maximum which has no identity".

(** [cm.max()]: the maximum over all cells; an array without cells has
    none. *)
Definition np_max (cm : ndarray2) : result scalar :=
  match cm with
  | IntArr rows =>
      match concat rows with
      | [] => Err zero_size_error
      | x :: t => Ok (NpInt64 (fold_left Z.max t x))
      end
  | FloatArr rows =>
      match concat rows with
      | [] => Err zero_size_error
      | x :: t => Ok (NpFloat64 (fold_left fmax_nan t x))
      end
  end.

(** [a > b] between numpy scalars, compared as [float64]. *)
Definition scalar_gt (a b : scalar) : bool :=
  (to_float b <? to_float a)%float.

(** [np.arange(n)] and [range(n)] *)
Definition np_arange (n : nat) : list Z := map Z.of_nat (seq 0 n).
Definition range (n : nat) : list nat := seq 0 n.

(** [itertools.product(xs, ys)]: the pairs in row-major order. *)
Definition product {A B} (xs : list A) (ys : list B) : list (A * B) :=
  flat_map (fun x => map (fun y => (x, y)) ys) xs.

(* ===================================================================== *)
(** * scikit-learn's [confusion_matrix]                                   *)
(* ===================================================================== *)

(** The library function [sklearn.metrics.confusion_matrix(y_true,
    y_pred, labels)] is called, not defined, by the notebook.  It is
    modelled after the library: labels are mapped to their index (a
    dictionary built from [enumerate(labels)], so of a repeated label the
    last index stays), samples with a label outside [labels] are dropped,
    and every remaining sample adds one to the cell at (index of its true
    label, index of its predicted label) of an [n_labels] x [n_labels]
    matrix of zeros. *)

(** [{y: x for x, y in enumerate(labels)}.get(s)] *)
Fixpoint label_to_ind_from (i : nat) (labels : list str) (s : str) : option nat :=
  match labels with
  | [] => None
  | l :: t =>
      match label_to_ind_from (S i) t s with
      | Some k => Some k
      | None => if str_eqb l s then Some i else None
      end
  end.

Definition label_to_ind (labels : list str) (s : str) : option nat :=
  label_to_ind_from 0 labels s.

Definition zeros (n m : nat) : list (list Z) := repeat (repeat 0 m) n.

(** Adds one to the cell at row [i], column [j]. *)
Definition bump (i j : nat) (m : list (list Z)) : list (list Z) :=
  list_set i (list_set j (wrap64 (nth j (nth i m []) 0 + 1)) (nth i m [])) m.

Definition count_sample (labels : list str) (m : list (list Z))
  (sample : str * str) : list (list Z) :=
  match label_to_ind labels (fst sample), label_to_ind labels (snd sample) with
  | Some i, Some j => bump i j m
  | _, _ => m
  end.

Definition confusion_matrix (y_true y_pred labels : list str)
  : result (list (list Z)) :=
  let n_labels := length labels in
  if negb (Nat.eqb (length y_true) (length y_pred)) then
    Err (ValueError "Found input variables with inconsistent numbers of samples")
  else if Nat.eqb n_labels 0 then
    Err (ValueError "'labels' should contains at least one label.")
  else if Nat.eqb (length y_true) 0 then
    Ok (zeros n_labels n_labels)
  else if forallb (fun l => negb (existsb (str_eqb l) y_true)) labels then
    Err (ValueError "At least one label specified must be in y_true")
  else
    Ok (fold_left (count_sample labels) (combine y_true y_pred)
                  (zeros n_labels n_labels)).

(* ===================================================================== *)
(** * [list(set(actual))]                                                 *)
(* ===================================================================== *)

(** A Python set of strings is iterated in an order fixed by the hashes
    of its elements, which differ from run to run.  The run supplies them
    as a ranking; the set is listed by increasing rank, elements of equal
    rank in the order they were inserted. *)
Fixpoint insert_by (rank : str -> N) (x : str) (l : list str) : list str :=
  match l with
  | [] => [x]
  | y :: t => if (rank x <? rank y)%N then x :: y :: t
              else y :: insert_by rank x t
  end.

Definition sort_by (rank : str -> N) (l : list str) : list str :=
  fold_right (insert_by rank) [] l.

Definition list_of_set (rank : str -> N) (xs : list str) : list str :=
  sort_by rank (nodup str_eq_dec xs).

(* ===================================================================== *)
(** * Events, the runtime and the trace monad                             *)
(* ===================================================================== *)

(** An argument of [print]. *)
Inductive printable : Type :=
| PStr (s : string)
| PScalar (v : scalar)
| PArray (a : ndarray2).

(** [RandomForestClassifier(n_estimators=...)]: an unfitted estimator is
    its parameters. *)
Record RandomForestClassifier : Type := { n_estimators : Z }.

(** The calls that leave the notebook's own code, with their arguments.
    The text of [plt_text] is ["{}".format(s)], recorded as the scalar
    [s] that is formatted. *)
Inductive event : Type :=
| np_load (path : string)
| cross_val_predict (estimator : RandomForestClassifier)
    (X : list (list float)) (y : list str) (cv : Z)
| print (args : list printable)
| plt_figure
| plt_imshow (X : ndarray2) (interpolation cmap : string)
| plt_title (s : string)
| plt_colorbar
| plt_xticks (ticks : list Z) (labels : list str) (rotation : Z)
| plt_yticks (ticks : list Z) (labels : list str)
| plt_text (x y : Z) (s : scalar) (horizontalalignment color : string)
| plt_tight_layout
| plt_ylabel (s : string)
| plt_xlabel (s : string)
| plt_show.

(** A run of the notebook is determined by what its environment answers:
    the content of a file (or the exception reading it raises), the
    predictions of the randomised, cross-validated estimator (or its
    exception), whether a console or plotting call raises given all that
    happened before, the hash order of strings, and the platform side of
    numpy. *)
Record runtime : Type := {
  rt_numpy : numpy_rt;
  rt_file : string -> result recarray;
  rt_cross_val_predict :
    RandomForestClassifier -> list (list float) -> list str -> Z ->
    result (list str);
  rt_raises : list event -> event -> option exn;
  rt_hash : str -> N
}.

(** A computation takes the trace so far and returns the extended trace
    with its result. *)
Definition M (A : Type) : Type := list event -> list event * result A.

Module Run.
Definition ret {A} (a : A) : M A := fun h => (h, Ok a).

Definition bind {A B} (m : M A) (k : A -> M B) : M B :=
  fun h =>
    match m h with
    | (h', Ok a) => k a h'
    | (h', Err e) => (h', Err e)
    end.

(** A computation that touches nothing outside. *)
Definition lift {A} (r : result A) : M A := fun h => (h, r).

(** A console or plotting call. *)
Definition call (rt : runtime) (e : event) : M unit :=
  fun h =>
    (h ++ [e],
     match rt_raises rt h e with
     | Some x => Err x
     | None => Ok tt
     end).

(** A call whose answer the runtime provides. *)
Definition ask {A} (e : event) (answer : result A) : M A :=
  fun h => (h ++ [e], answer).

(** [for x in xs: body(x)] *)
Fixpoint for_each {A} (xs : list A) (body : A -> M unit) : M unit :=
  match xs with
  | [] => ret tt
  | x :: t => bind (body x) (fun _ => for_each t body)
  end.
End Run.

Declare Scope run_scope.
Delimit Scope run_scope with run.
Notation "x <- e ;; k" := (Run.bind e (fun x => k))
  (at level 61, e at next level, right associativity) : run_scope.
Notation "' pat <- e ;; k" := (Run.bind e (fun x => match x with pat => k end))
  (at level 61, pat pattern, e at next level, right associativity) : run_scope.
Notation "e ;; k" := (Run.bind e (fun _ => k))
  (at level 61, right associativity) : run_scope.

(* ===================================================================== *)
(** * [plot_confusion_matrix], [rf_predict_actual] and the main script    *)
(* ===================================================================== *)

Section Notebook.
Variable rt : runtime.

Local Open Scope run_scope.
Local Abbreviation call := (Run.call rt).

(** ["white" if v > thresh else "black"] *)
Definition text_color (v thresh : scalar) : string :=
  if scalar_gt v thresh then "white"%string else "black"%string.

(** [plot_confusion_matrix(cm, classes, normalize, title, cmap)]: the
    image, its title, colour bar and ticks; the optional normalisation
    and the two prints; the threshold and the loop that writes on the
    cells; the layout and the axis labels.  [cm] is a matrix of counts
    ([int64]), as [confusion_matrix] returns it. *)
Definition plot_confusion_matrix (cm : list (list Z)) (classes : list str)
  (normalize : bool) (title : string) (cmap : string) : M unit :=
  call (plt_imshow (IntArr cm) "nearest" cmap) ;;
  call (plt_title title) ;;
  call plt_colorbar ;;
  let tick_marks := np_arange (length classes) in
  call (plt_xticks tick_marks classes 45) ;;
  call (plt_yticks tick_marks classes) ;;
  cm <- (if normalize then
           let cm := FloatArr (row_normalize cm) in
           call (print [PStr "Normalized confusion matrix"]) ;;
           Run.ret cm
         else
           call (print [PStr "Confusion matrix, without normalization"]) ;;
           Run.ret (IntArr cm)) ;;
  call (print [PArray cm]) ;;
  mx <- Run.lift (np_max cm) ;;
  thresh <- Run.lift (truediv mx (NpFloat64 2)) ;;
  Run.for_each (product (range (shape0 cm)) (range (shape1 cm)))
    (fun ij =>
       let i := fst ij in
       let j := snd ij in
       call (plt_text (Z.of_nat j) (Z.of_nat i) (item cm i j) "center"
               (text_color (item cm i j) thresh))) ;;
  call plt_tight_layout ;;
  call (plt_ylabel "True Class") ;;
  call (plt_xlabel "Predicted Class").

(** [features, targets = generate_features_targets(data)];
    [rfc = RandomForestClassifier(n_estimators=n_estimators)];
    [predicted = cross_val_predict(rfc, features, targets, cv=10)];
    [return predicted, targets] *)
Definition rf_predict_actual (data : recarray) (n_estimators : Z)
  : M (list str * list str) :=
  ' (features, targets) <-
      Run.lift (generate_features_targets (rt_numpy rt) data) ;;
  let rfc := {| n_estimators := n_estimators |} in
  predicted <- Run.ask (cross_val_predict rfc features targets 10)
                 (rt_cross_val_predict rt rfc features targets 10) ;;
  Run.ret (predicted, targets).

(** The body of [if __name__ == "__main__":]. *)
Definition main : M unit :=
  data <- Run.ask (np_load "galaxy_catalogue.npy")
            (rt_file rt "galaxy_catalogue.npy") ;;
  let number_estimators := 50 in
  ' (predicted, actual) <- rf_predict_actual data number_estimators ;;
  accuracy <- Run.lift (calculate_accuracy predicted actual) ;;
  call (print [PStr "Accuracy score:"; PScalar accuracy]) ;;
  let class_labels := list_of_set (rt_hash rt) actual in
  model_cm <- Run.lift (confusion_matrix actual predicted class_labels) ;;
  call plt_figure ;;
  plot_confusion_matrix model_cm class_labels false "Confusion matrix" "Blues" ;;
  call plt_show.
End Notebook.

(* ===================================================================== *)
(** * Vocabulary of the statements                                        *)
(* ===================================================================== *)

(** The matrix bound to [cm] after the [if normalize:] statement of
    [plot_confusion_matrix]. *)
Definition normalized_or_raw (cm : list (list Z)) (normalize : bool) : ndarray2 :=
  if normalize then FloatArr (row_normalize cm) else IntArr cm.

(** The number of positions [i] at which [actual[i]] equals
    [predicted[i]]. *)
Definition equal_positions (actual predicted : list str) : nat :=
  length (filter (fun i => str_eqb (nth i actual []) (nth i predicted []))
                 (seq 0 (length actual))).

(** The size of a numpy array fits a signed 64-bit integer. *)
Definition array_size_ok {A} (xs : list A) : Prop :=
  Z.of_nat (length xs) < 2 ^ 63.

(** The columns of a catalogue that has every field the notebook reads:
    sixteen [float64] fields and the string field ['class']. *)
Record galaxy_columns : Type := {
  col_u_g : list float;
  col_g_r : list float;
  col_r_i : list float;
  col_i_z : list float;
  col_ecc : list float;
  col_m4_u : list float;
  col_m4_g : list float;
  col_m4_r : list float;
  col_m4_i : list float;
  col_m4_z : list float;
  col_petroR50_u : list float;
  col_petroR90_u : list float;
  col_petroR50_r : list float;
  col_petroR90_r : list float;
  col_petroR50_z : list float;
  col_petroR90_z : list float;
  col_class : list str
}.

Definition has_float_field (data : recarray) (name : string) (xs : list float)
  : Prop :=
  getitem data name = Ok (FloatCol xs) /\ length xs = nrows data.

Definition has_str_field (data : recarray) (name : string) (xs : list str)
  : Prop :=
  getitem data name = Ok (StrCol xs) /\ length xs = nrows data.

(** [data] is a catalogue with the columns [g]: every field is present,
    of the expected dtype, and as long as the array. *)
Definition has_schema (data : recarray) (g : galaxy_columns) : Prop :=
  has_str_field data "class" (col_class g)
  /\ has_float_field data "u-g" (col_u_g g)
  /\ has_float_field data "g-r" (col_g_r g)
  /\ has_float_field data "r-i" (col_r_i g)
  /\ has_float_field data "i-z" (col_i_z g)
  /\ has_float_field data "ecc" (col_ecc g)
  /\ has_float_field data "m4_u" (col_m4_u g)
  /\ has_float_field data "m4_g" (col_m4_g g)
  /\ has_float_field data "m4_r" (col_m4_r g)
  /\ has_float_field data "m4_i" (col_m4_i g)
  /\ has_float_field data "m4_z" (col_m4_z g)
  /\ has_float_field data "petroR50_u" (col_petroR50_u g)
  /\ has_float_field data "petroR90_u" (col_petroR90_u g)
  /\ has_float_field data "petroR50_r" (col_petroR50_r g)
  /\ has_float_field data "petroR90_r" (col_petroR90_r g)
  /\ has_float_field data "petroR50_z" (col_petroR50_z g)
  /\ has_float_field data "petroR90_z" (col_petroR90_z g).

(** The cell of row [i] in a [float64] column. *)
Definition cell (xs : list float) (i : nat) : float := nth i xs nan.

(** The layout of a feature row: four colour indices, the eccentricity,
    five fourth moments, three concentrations. *)
Definition feature_row (g : galaxy_columns) (i : nat) : list float :=
  [ cell (col_u_g g) i; cell (col_g_r g) i; cell (col_r_i g) i;
    cell (col_i_z g) i;
    cell (col_ecc g) i;
    cell (col_m4_u g) i; cell (col_m4_g g) i; cell (col_m4_r g) i;
    cell (col_m4_i g) i; cell (col_m4_z g) i;
    (cell (col_petroR50_u g) i / cell (col_petroR90_u g) i)%float;
    (cell (col_petroR50_r g) i / cell (col_petroR90_r g) i)%float;
    (cell (col_petroR50_z g) i / cell (col_petroR90_z g) i)%float ].

(** The structured array of length [n] with the columns [g]. *)
Definition catalogue_of (n : nat) (g : galaxy_columns) : recarray :=
  {| nrows := n;
     fields :=
       [ ("u-g", FloatCol (col_u_g g)); ("g-r", FloatCol (col_g_r g));
         ("r-i", FloatCol (col_r_i g)); ("i-z", FloatCol (col_i_z g));
         ("ecc", FloatCol (col_ecc g));
         ("m4_u", FloatCol (col_m4_u g)); ("m4_g", FloatCol (col_m4_g g));
         ("m4_r", FloatCol (col_m4_r g)); ("m4_i", FloatCol (col_m4_i g));
         ("m4_z", FloatCol (col_m4_z g));
         ("petroR50_u", FloatCol (col_petroR50_u g));
         ("petroR50_r", FloatCol (col_petroR50_r g));
         ("petroR50_z", FloatCol (col_petroR50_z g));
         ("petroR90_u", FloatCol (col_petroR90_u g));
         ("petroR90_r", FloatCol (col_petroR90_r g));
         ("petroR90_z", FloatCol (col_petroR90_z g));
         ("class", StrCol (col_class g)) ]%string |}.

(** A platform for the examples: fresh memory holds [nan] and empty
    strings, no string parses as a float, a float prints as ["?"]. *)
Definition example_numpy : numpy_rt :=
  {| garbage_float := fun _ _ => nan;
     garbage_str := fun _ => [];
     parse_float := fun _ => Err (ValueError "could not convert string to float");
     repr_float := fun _ => chars_of "?" |}.

(** Three galaxies. *)
Definition example_columns : galaxy_columns :=
  {| col_u_g := [1.5; 2; 1.25]%float;
     col_g_r := [0.5; 0.75; 1]%float;
     col_r_i := [0.25; 0.5; 0.5]%float;
     col_i_z := [0.125; 0.25; 0.375]%float;
     col_ecc := [0.5; 0.75; 0.25]%float;
     col_m4_u := [2; 2.5; 3]%float;
     col_m4_g := [2; 2.25; 2.5]%float;
     col_m4_r := [2; 2.125; 2.25]%float;
     col_m4_i := [2; 2.5; 2.75]%float;
     col_m4_z := [2; 2.5; 1.5]%float;
     col_petroR50_u := [1; 3; 0]%float;
     col_petroR90_u := [2; 4; 0]%float;
     col_petroR50_r := [1; 1; 1]%float;
     col_petroR90_r := [4; 2; 0]%float;
     col_petroR50_z := [3; 1; 5]%float;
     col_petroR90_z := [4; 8; 10]%float;
     col_class := [chars_of "spiral"; chars_of "elliptical"; chars_of "merger"] |}.

Definition example_catalogue : recarray := catalogue_of 3 example_columns.

(** A label of 21 characters whose twentieth is NUL: nineteen ["a"], a
    NUL and a ["b"]. *)
Definition label_with_nul : str :=
  repeat 97%N 19 ++ [NUL; 98%N].

(** One galaxy whose class is [label_with_nul]. *)
Definition nul_columns : galaxy_columns :=
  {| col_u_g := [1]%float; col_g_r := [1]%float; col_r_i := [1]%float;
     col_i_z := [1]%float; col_ecc := [1]%float;
     col_m4_u := [1]%float; col_m4_g := [1]%float; col_m4_r := [1]%float;
     col_m4_i := [1]%float; col_m4_z := [1]%float;
     col_petroR50_u := [1]%float; col_petroR90_u := [2]%float;
     col_petroR50_r := [1]%float; col_petroR90_r := [2]%float;
     col_petroR50_z := [1]%float; col_petroR90_z := [2]%float;
     col_class := [label_with_nul] |}.

Definition nul_catalogue : recarray := catalogue_of 1 nul_columns.

(** A runtime in which no console or plotting call raises. *)
Definition quiet (rt : runtime) : Prop :=
  forall h e, rt_raises rt h e = None.

(** The cells of a matrix, in the order the plotting loop visits them. *)
Definition cells (cm : ndarray2) : list (nat * nat) :=
  product (range (shape0 cm)) (range (shape1 cm)).

(** [cm.max() / 2.] ([nan] stands in when the matrix has no cell, and
    then there is no cell to compare with it). *)
Definition thresh_of (cm : ndarray2) : scalar :=
  match np_max cm with
  | Ok mx => NpFloat64 (to_float mx / 2)
  | Err _ => NpFloat64 nan
  end.

(** The annotation of cell [(i, j)]: at abscissa [j] and ordinate [i],
    the value [cm[i, j]] as text, centred, white when the value exceeds
    half the maximum and black otherwise. *)
Definition annotation (cm : ndarray2) (ij : nat * nat) : event :=
  plt_text (Z.of_nat (snd ij)) (Z.of_nat (fst ij))
    (item cm (fst ij) (snd ij)) "center"
    (if scalar_gt (item cm (fst ij) (snd ij)) (thresh_of cm)
     then "white" else "black")%string.

Definition is_text (e : event) : bool :=
  match e with
  | plt_text _ _ _ _ _ => true
  | _ => false
  end.

(** Is [e] a text placed on cell [(i, j)]? *)
Definition text_on (i j : nat) (e : event) : bool :=
  match e with
  | plt_text x y _ _ _ => Z.eqb x (Z.of_nat j) && Z.eqb y (Z.of_nat i)
  | _ => false
  end.

Definition is_imshow (e : event) : bool :=
  match e with
  | plt_imshow _ _ _ => true
  | _ => false
  end.

(** What [plot_confusion_matrix] draws and prints before and after its
    loop. *)
Definition plot_head (cm : list (list Z)) (classes : list str)
  (normalize : bool) (title cmap : string) : list event :=
  [ plt_imshow (IntArr cm) "nearest" cmap;
    plt_title title;
    plt_colorbar;
    plt_xticks (np_arange (length classes)) classes 45;
    plt_yticks (np_arange (length classes)) classes;
    print [PStr (if normalize then "Normalized confusion matrix"
                 else "Confusion matrix, without normalization")%string];
    print [PArray (normalized_or_raw cm normalize)] ].

Definition plot_tail : list event :=
  [ plt_tight_layout; plt_ylabel "True Class"; plt_xlabel "Predicted Class" ].

(** In the trace [tr] the image and the text on cell [(i, j)] disagree:
    the matrix handed to [imshow] holds there another value than the one
    written on the cell. *)
Definition disagree_on (tr : list event) (i j : nat) : Prop :=
  exists X interpolation cmap v alignment color,
    In (plt_imshow X interpolation cmap) tr
    /\ In (plt_text (Z.of_nat j) (Z.of_nat i) v alignment color) tr
    /\ to_float (item X i j) <> to_float v.

(** A runtime for the examples: the catalogue file holds
    [example_catalogue], every other file is missing, the estimator
    predicts ["spiral"; "elliptical"; "elliptical"], no call raises and
    strings are ranked by their length. *)
Definition example_runtime : runtime :=
  {| rt_numpy := example_numpy;
     rt_file := fun path =>
       if String.eqb path "galaxy_catalogue.npy" then Ok example_catalogue
       else Err (PyExc "FileNotFoundError" "No such file or directory");
     rt_cross_val_predict := fun _ _ _ _ =>
       Ok [chars_of "spiral"; chars_of "elliptical"; chars_of "elliptical"];
     rt_raises := fun _ _ => None;
     rt_hash := fun s => N.of_nat (length s) |}.

(** The number of samples whose true class is [t] and whose predicted
    class is [p]. *)
Definition samples_with (actual predicted : list str) (t p : str) : nat :=
  length (filter (fun k => str_eqb (nth k actual []) t
                           && str_eqb (nth k predicted []) p)
                 (seq 0 (length actual))).

(** The number of distinct labels of an array. *)
Definition n_distinct (xs : list str) : nat :=
  length (nodup str_eq_dec xs).

(** The cell at row [i], column [j] of a matrix of counts. *)
Definition mcell (m : list (list Z)) (i j : nat) : Z :=
  nth j (nth i m []) 0.

(** An [n] x [n] matrix. *)
Definition square (n : nat) (m : list (list Z)) : Prop :=
  length m = n /\ Forall (fun row => length row = n) m.

(** The number of (true, predicted) pairs equal to [(t, p)]. *)
Definition count_pairs (t p : str) (samples : list (str * str)) : nat :=
  length (filter (fun s => str_eqb (fst s) t && str_eqb (snd s) p) samples).

(** The exception a result carries, if any. *)
Definition err_of {A} (r : result A) : option exn :=
  match r with
  | Ok _ => None
  | Err e => Some e
  end.

(** The first exception in a sequence of outcomes. *)
Fixpoint first_exception (outcomes : list (option exn)) : option exn :=
  match outcomes with
  | [] => None
  | Some e :: _ => Some e
  | None :: rest => first_exception rest
  end.

(** The array operations of [generate_features_targets]: the lookup of a
    field [data[name]], the division of two fields, and the three kinds
    of assignment: of a field to the targets, of a field to column [k] of
    the features, of the quotient of two fields to column [k]. *)
Inductive operation : Type :=
| Lookup (name : string)
| Divide (num den : string)
| StoreTargets (name : string)
| StoreColumn (k : nat) (name : string)
| StoreRatio (k : nat) (num den : string).

(** The exception an operation raises on the catalogue [data]; [None]
    when it raises none, and when it has no operand because an earlier
    operation failed to produce it.  An assignment is taken on the
    freshly allocated array: whether it raises depends on the length of
    the array it assigns to, which no assignment changes. *)
Definition raises (np : numpy_rt) (data : recarray) (o : operation)
  : option exn :=
  match o with
  | Lookup name => err_of (getitem data name)
  | Divide num den =>
      match getitem data num, getitem data den with
      | Ok a, Ok b => err_of (col_truediv a b)
      | _, _ => None
      end
  | StoreTargets name =>
      match getitem data name with
      | Ok c => err_of (setitem_all_U np 20 (np_empty_U np (nrows data)) c)
      | Err _ => None
      end
  | StoreColumn k name =>
      match getitem data name with
      | Ok c => err_of (setitem_col np (np_empty2 np (nrows data) 13) k c)
      | Err _ => None
      end
  | StoreRatio k num den =>
      match getitem data num, getitem data den with
      | Ok a, Ok b =>
          match col_truediv a b with
          | Ok q => err_of (setitem_col np (np_empty2 np (nrows data) 13) k q)
          | Err _ => None
          end
      | _, _ => None
      end
  end.

(** The operations of [generate_features_targets], in the order in which
    it performs them: the right-hand side of an assignment before the
    assignment, the left operand of a division before the right one. *)
Definition generate_features_targets_operations : list operation :=
  [ Lookup "class"; StoreTargets "class";
    Lookup "u-g"; StoreColumn 0 "u-g";
    Lookup "g-r"; StoreColumn 1 "g-r";
    Lookup "r-i"; StoreColumn 2 "r-i";
    Lookup "i-z"; StoreColumn 3 "i-z";
    Lookup "ecc"; StoreColumn 4 "ecc";
    Lookup "m4_u"; StoreColumn 5 "m4_u";
    Lookup "m4_g"; StoreColumn 6 "m4_g";
    Lookup "m4_r"; StoreColumn 7 "m4_r";
    Lookup "m4_i"; StoreColumn 8 "m4_i";
    Lookup "m4_z"; StoreColumn 9 "m4_z";
    Lookup "petroR50_u"; Lookup "petroR90_u";
    Divide "petroR50_u" "petroR90_u";
    StoreRatio 10 "petroR50_u" "petroR90_u";
    Lookup "petroR50_r"; Lookup "petroR90_r";
    Divide "petroR50_r" "petroR90_r";
    StoreRatio 11 "petroR50_r" "petroR90_r";
    Lookup "petroR50_z"; Lookup "petroR90_z";
    Divide "petroR50_z" "petroR90_z";
    StoreRatio 12 "petroR50_z" "petroR90_z" ]%string.

(** The console and plotting calls [evs] made in this order after the
    history [h]: every call made is logged; the first that raises ends
    the sequence with its exception, and no call is made after it. *)
Fixpoint make_calls (rt : runtime) (evs : list event) (h : list event)
  : list event * result unit :=
  match evs with
  | [] => (h, Ok tt)
  | ev :: rest =>
      match rt_raises rt h ev with
      | Some x => (h ++ [ev], Err x)
      | None => make_calls rt rest (h ++ [ev])
      end
  end.

(** The fields [generate_features_targets] reads, in the order it reads
    them. *)
Definition read_fields : list string :=
  [ "class"; "u-g"; "g-r"; "r-i"; "i-z"; "ecc";
    "m4_u"; "m4_g"; "m4_r"; "m4_i"; "m4_z";
    "petroR50_u"; "petroR90_u"; "petroR50_r"; "petroR90_r";
    "petroR50_z"; "petroR90_z" ]%string.

(** Every call a computation adds to the trace satisfies [P]. *)
Definition emits (P : event -> Prop) {A} (m : M A) : Prop :=
  forall h, exists added, fst (m h) = h ++ added /\ Forall P added.

(** Is the call an [np.load]? *)
Definition is_np_load (ev : event) : bool :=
  match ev with
  | np_load _ => true
  | _ => false
  end.

(** A runtime in which the catalogue file is missing. *)
Definition missing_file_runtime : runtime :=
  {| rt_numpy := example_numpy;
     rt_file := fun _ =>
       Err (PyExc "FileNotFoundError" "No such file or directory");
     rt_cross_val_predict := fun _ _ y _ => Ok y;
     rt_raises := fun _ _ => None;
     rt_hash := fun s => N.of_nat (length s) |}.

(** [data] without its field [name]. *)
Definition drop_field (name : string) (data : recarray) : recarray :=
  {| nrows := nrows data;
     fields := filter (fun p => negb (String.eqb (fst p) name)) (fields data) |}.

(** An array of [n] rows of [m] cells. *)
Definition shaped {A} (n m : nat) (arr : list (list A)) : Prop :=
  length arr = n /\ Forall (fun row => length row = m) arr.

(** A value a [<U20] cell holds as it is: at most 20 characters, none of
    them a NUL at the end. *)
Definition fits_U20 (s : str) : Prop :=
  (length s <= 20)%nat /\ U_load s = s.

(** Two galaxies whose class labels, 24 characters long, differ in
    their last character only. *)
Definition long_label_columns : galaxy_columns :=
  {| col_u_g := [1; 2]%float; col_g_r := [1; 2]%float;
     col_r_i := [1; 2]%float; col_i_z := [1; 2]%float;
     col_ecc := [1; 2]%float;
     col_m4_u := [1; 2]%float; col_m4_g := [1; 2]%float;
     col_m4_r := [1; 2]%float; col_m4_i := [1; 2]%float;
     col_m4_z := [1; 2]%float;
     col_petroR50_u := [1; 2]%float; col_petroR90_u := [2; 4]%float;
     col_petroR50_r := [1; 2]%float; col_petroR90_r := [2; 4]%float;
     col_petroR50_z := [1; 2]%float; col_petroR90_z := [2; 4]%float;
     col_class := [chars_of "spiral_barred_type_one_a";
                   chars_of "spiral_barred_type_one_b"] |}.

(** The sum of a list of integers, without wrap-around. *)
Definition sumZ (l : list Z) : Z := fold_right Z.add 0 l.

(** The sum of the diagonal of a matrix of counts. *)
Definition diagonal_sum (m : list (list Z)) : Z :=
  sumZ (map (fun i => mcell m i i) (seq 0 (length m))).

(** The number of samples of class [t]. *)
Definition class_size (actual : list str) (t : str) : nat :=
  length (filter (fun a => str_eqb a t) actual).

(* ===================================================================== *)
(** * Lemmas on lists and counting                                        *)
(* ===================================================================== *)

Lemma wrap64_small (z : Z) : - 2 ^ 63 <= z < 2 ^ 63 -> wrap64 z = z.
Proof.
  intros H. unfold wrap64.
  rewrite Z.mod_small; lia.
Qed.

Lemma length_filter_map {A B} (f : B -> bool) (g : A -> B) (l : list A) :
  length (filter f (map g l)) = length (filter (fun x => f (g x)) l).
Proof.
  induction l as [|x l IH]; simpl; [reflexivity|].
  destruct (f (g x)); simpl; congruence.
Qed.

Lemma length_filter_le {A} (f : A -> bool) (l : list A) :
  (length (filter f l) <= length l)%nat.
Proof.
  induction l as [|x l IH]; simpl; [lia|].
  destruct (f x); simpl; lia.
Qed.

(** Counting positions through indices or through the zipped pairs is
    the same. *)
Lemma positions_combine {A B} (P : A -> B -> bool) (dx : A) (dy : B) :
  forall (xs : list A) (ys : list B),
    length xs = length ys ->
    length (filter (fun k => P (nth k xs dx) (nth k ys dy))
                   (seq 0 (length xs)))
    = length (filter (fun p => P (fst p) (snd p)) (combine xs ys)).
Proof.
  induction xs as [|x xs IH]; intros [|y ys] Hlen; simpl in *;
    try discriminate; [reflexivity|].
  injection Hlen as Hlen.
  rewrite <- seq_shift.
  destruct (P x y); simpl; rewrite length_filter_map; simpl;
    rewrite IH by assumption; reflexivity.
Qed.

Lemma fold_add_bool (bs : list bool) :
  forall z : Z,
    0 <= z -> z + Z.of_nat (length bs) < 2 ^ 63 ->
    fold_left add_bool bs (NpInt64 z)
    = NpInt64 (z + Z.of_nat (length (filter (fun b => b) bs))).
Proof.
  induction bs as [|b bs IH]; intros z Hz Hb;
    cbn [fold_left add_bool length filter] in *.
  - f_equal. lia.
  - pose proof (length_filter_le (fun b => b) bs) as Hle.
    rewrite wrap64_small by (destruct b; cbn [Z.b2z]; lia).
    rewrite IH by (destruct b; cbn [Z.b2z]; lia).
    f_equal. destruct b; cbn [Z.b2z length]; lia.
Qed.

(** The builtin [sum] over a non-empty boolean array is the [int64]
    count of its true cells. *)
Lemma py_sum_count (bs : list bool) :
  bs <> [] -> array_size_ok bs ->
  py_sum bs = NpInt64 (Z.of_nat (length (filter (fun b => b) bs))).
Proof.
  unfold py_sum, array_size_ok.
  destruct bs as [|b bs]; [congruence|]. intros _ Hsz.
  cbn [fold_left add_bool length filter] in *.
  pose proof (length_filter_le (fun b => b) bs) as Hle.
  rewrite wrap64_small by (destruct b; cbn [Z.b2z]; lia).
  rewrite fold_add_bool by (destruct b; cbn [Z.b2z]; lia).
  f_equal. destruct b; cbn [Z.b2z length]; lia.
Qed.

Lemma broadcast2_same_length {A B C} (f : A -> B -> C) xs ys :
  length xs = length ys ->
  broadcast2 f xs ys = Ok (map (fun p => f (fst p) (snd p)) (combine xs ys)).
Proof.
  intros H. unfold broadcast2. rewrite H, Nat.eqb_refl. reflexivity.
Qed.

Lemma broadcast_to_same_length {A} (xs : list A) :
  broadcast_to (length xs) xs = Ok xs.
Proof. unfold broadcast_to. rewrite Nat.eqb_refl. reflexivity. Qed.

(** A broadcast never fails with a division by zero. *)
Lemma broadcast2_not_zero_division {A B C} (f : A -> B -> C) xs ys :
  broadcast2 f xs ys <> Err ZeroDivisionError.
Proof.
  unfold broadcast2.
  destruct (Nat.eqb _ _); [discriminate|].
  destruct xs as [|x [|x' xs]]; destruct ys as [|y [|y' ys]];
    discriminate.
Qed.

(* ===================================================================== *)
(** * Accuracy                                                            *)
(* ===================================================================== *)

(** C1: for equal-length label arrays with [actual_classes] non-empty,
    [calculate_accuracy] returns the number of positions at which the two
    arrays hold equal labels divided (in [float64]) by the length of
    [actual_classes]. *)
Theorem calculate_accuracy_fraction (predicted_classes actual_classes : list str) :
  length predicted_classes = length actual_classes ->
  actual_classes <> [] ->
  array_size_ok actual_classes ->
  calculate_accuracy predicted_classes actual_classes
  = Ok (NpFloat64
          (float_of_Z (Z.of_nat (equal_positions actual_classes predicted_classes))
           / float_of_Z (Z.of_nat (length actual_classes)))).
Proof.
  intros Hlen Hne Hsz. unfold calculate_accuracy, np_equal.
  rewrite broadcast2_same_length by congruence. simpl.
  rewrite py_sum_count.
  - rewrite length_filter_map.
    unfold equal_positions.
    rewrite (positions_combine str_eqb [] []) by congruence.
    unfold py_len, truediv. reflexivity.
  - destruct actual_classes as [|a l]; [congruence|].
    destruct predicted_classes; simpl in *; congruence.
  - unfold array_size_ok in *.
    rewrite length_map, length_combine, Hlen, Nat.min_id. exact Hsz.
Qed.

Lemma calculate_accuracy_fraction_witness :
  calculate_accuracy [chars_of "spiral"; chars_of "merger"; chars_of "spiral"]
                     [chars_of "spiral"; chars_of "merger"; chars_of "merger"]
  = Ok (NpFloat64 (float_of_Z 2 / float_of_Z 3)).
Proof.
  apply (@calculate_accuracy_fraction
           [chars_of "spiral"; chars_of "merger"; chars_of "spiral"]
           [chars_of "spiral"; chars_of "merger"; chars_of "merger"]).
  - reflexivity.
  - discriminate.
  - unfold array_size_ok. cbn [length]. lia.
Defined.

Lemma truediv_nonzero_len {A} (s : scalar) (xs : list A) :
  xs <> [] -> exists f, truediv s (py_len xs) = Ok (NpFloat64 f).
Proof.
  destruct xs as [|x xs]; [congruence|]. intros _.
  unfold py_len. cbn [length]. rewrite Nat2Z.inj_succ.
  destruct (Z.succ (Z.of_nat (length xs))) eqn:E; [lia| |];
    destruct s; cbn; eexists; reflexivity.
Qed.

(** On a non-empty [actual_classes] and a [predicted_classes] of the
    same length, [calculate_accuracy] returns a float. *)
Lemma calculate_accuracy_returns (predicted_classes actual_classes : list str) :
  actual_classes <> [] ->
  length predicted_classes = length actual_classes ->
  exists f, calculate_accuracy predicted_classes actual_classes
            = Ok (NpFloat64 f).
Proof.
  intros Hne Hlen. unfold calculate_accuracy, np_equal.
  rewrite broadcast2_same_length by congruence. cbn [Res.bind].
  apply truediv_nonzero_len. exact Hne.
Qed.

(** C8: [calculate_accuracy] divides by [len(actual_classes)] without a
    guard.  On the empty [actual_classes] (with a [predicted_classes]
    that can be compared with it: empty as well, or of length one) it
    raises ZeroDivisionError; on a non-empty [actual_classes] it never
    raises that error, and with a [predicted_classes] of the same length
    it returns a value. *)
Theorem calculate_accuracy_zero_division :
  (forall predicted_classes : list str,
      (length predicted_classes <= 1)%nat ->
      calculate_accuracy predicted_classes [] = Err ZeroDivisionError)
  /\ (forall predicted_classes actual_classes : list str,
         actual_classes <> [] ->
         calculate_accuracy predicted_classes actual_classes
         <> Err ZeroDivisionError)
  /\ (forall predicted_classes actual_classes : list str,
         actual_classes <> [] ->
         length predicted_classes = length actual_classes ->
         exists f, calculate_accuracy predicted_classes actual_classes
                   = Ok (NpFloat64 f)).
Proof.
  split; [|split].
  - intros [|p [|p' ps]] Hlen; cbn [length] in Hlen; try lia; reflexivity.
  - intros p a Hne. unfold calculate_accuracy, np_equal.
    destruct (broadcast2 str_eqb a p) as [eq|e] eqn:E; cbn [Res.bind].
    + destruct (truediv_nonzero_len (py_sum eq) Hne) as [f ->]. discriminate.
    + intros H. injection H as ->.
      exact (broadcast2_not_zero_division E).
  - intros p a Hne Hlen. apply calculate_accuracy_returns; assumption.
Qed.

Lemma calculate_accuracy_zero_division_witness :
  calculate_accuracy [] [] = Err ZeroDivisionError
  /\ calculate_accuracy [chars_of "merger"] [chars_of "spiral"]
     <> Err ZeroDivisionError
  /\ exists f, calculate_accuracy [chars_of "merger"] [chars_of "spiral"]
               = Ok (NpFloat64 f).
Proof.
  destruct calculate_accuracy_zero_division as [Hempty [Hnever Htotal]].
  split; [|split].
  - apply Hempty. cbn [length]. lia.
  - apply Hnever. discriminate.
  - apply Htotal; [discriminate | reflexivity].
Defined.

(* ===================================================================== *)
(** * Feature assembly                                                    *)
(* ===================================================================== *)

Lemma combine_map_seq {A B} (f : nat -> A) (d : B) (xs : list B) :
  forall s,
    combine (map f (seq s (length xs))) xs
    = map (fun i => (f i, nth (i - s) xs d)) (seq s (length xs)).
Proof.
  induction xs as [|x xs IH]; intros s; cbn [length seq map combine].
  - reflexivity.
  - rewrite Nat.sub_diag. cbn [nth]. f_equal.
    rewrite IH. apply map_ext_in. intros i Hi. apply in_seq in Hi.
    replace (i - s)%nat with (S (i - S s)) by lia. reflexivity.
Qed.

Lemma nth_map_combine {A B C} (f : A -> B -> C) (dx : A) (dy : B) (d : C)
  (xs : list A) (ys : list B) (i : nat) :
  length xs = length ys -> (i < length xs)%nat ->
  nth i (map (fun p => f (fst p) (snd p)) (combine xs ys)) d
  = f (nth i xs dx) (nth i ys dy).
Proof.
  intros Hlen Hi.
  rewrite (nth_indep _ d (f dx dy))
    by (rewrite length_map, length_combine; lia).
  rewrite (map_nth (fun p => f (fst p) (snd p)) (combine xs ys) (dx, dy)).
  rewrite combine_nth by assumption. reflexivity.
Qed.

(** Assigning a column of the right length rewrites cell [k] of every
    row. *)
Lemma setitem_col_rows (np : numpy_rt) (f : nat -> list float) (n k : nat)
  (xs : list float) :
  length xs = n ->
  setitem_col np (map f (seq 0 n)) k (FloatCol xs)
  = Ok (map (fun i => list_set k (cell xs i) (f i)) (seq 0 n)).
Proof.
  intros <-. unfold setitem_col. cbn [astype_float Res.bind].
  rewrite length_map, length_seq, broadcast_to_same_length. cbn [Res.bind].
  rewrite (combine_map_seq f nan), map_map. f_equal.
  apply map_ext. intros i. rewrite Nat.sub_0_r. reflexivity.
Qed.

Lemma col_truediv_rows (xs ys : list float) :
  length xs = length ys ->
  col_truediv (FloatCol xs) (FloatCol ys)
  = Ok (FloatCol (map (fun p => (fst p / snd p)%float) (combine xs ys))).
Proof.
  intros H. unfold col_truediv.
  rewrite broadcast2_same_length by assumption. reflexivity.
Qed.

Lemma cell_truediv (xs ys : list float) (i : nat) :
  length xs = length ys -> (i < length xs)%nat ->
  cell (map (fun p => (fst p / snd p)%float) (combine xs ys)) i
  = (cell xs i / cell ys i)%float.
Proof.
  intros Hlen Hi. unfold cell.
  apply (nth_map_combine PrimFloat.div nan nan nan); assumption.
Qed.

(** On a catalogue with every field, the result of
    [generate_features_targets] in closed form. *)
Lemma generate_features_targets_closed_form (np : numpy_rt) (data : recarray)
  (g : galaxy_columns) :
  has_schema data g ->
  generate_features_targets np data
  = Ok (map (feature_row g) (seq 0 (nrows data)),
        map (U_cast 20) (col_class g)).
Proof.
  unfold has_schema, has_str_field, has_float_field.
  intros (Hclass & Hug & Hgr & Hri & Hiz & Hecc & Hu & Hg & Hr & Hi & Hz
          & H5u & H9u & H5r & H9r & H5z & H9z).
  destruct Hclass as [Ec Lc]. destruct Hug as [E0 L0].
  destruct Hgr as [E1 L1]. destruct Hri as [E2 L2]. destruct Hiz as [E3 L3].
  destruct Hecc as [E4 L4]. destruct Hu as [E5 L5]. destruct Hg as [E6 L6].
  destruct Hr as [E7 L7]. destruct Hi as [E8 L8]. destruct Hz as [E9 L9].
  destruct H5u as [Ea La]. destruct H9u as [Eb Lb]. destruct H5r as [Ec' Lc'].
  destruct H9r as [Ed Ld]. destruct H5z as [Ee Le]. destruct H9z as [Ef Lf].
  unfold generate_features_targets.
  rewrite Ec, E0, E1, E2, E3, E4, E5, E6, E7, E8, E9, Ea, Eb, Ec', Ed, Ee, Ef.
  cbn [Res.bind].
  unfold setitem_all_U, np_empty_U. cbn [astype_U].
  rewrite length_map, length_seq.
  replace (nrows data) with (length (map (U_cast 20) (col_class g))) at 1
    by (rewrite length_map; exact Lc).
  rewrite broadcast_to_same_length. cbn [Res.bind].
  unfold np_empty2.
  repeat (rewrite setitem_col_rows by assumption; cbn [Res.bind]).
  rewrite !col_truediv_rows by congruence. cbn [Res.bind].
  repeat (rewrite setitem_col_rows
            by (rewrite length_map, length_combine; lia);
          cbn [Res.bind]).
  f_equal. f_equal. apply map_ext_in. intros i Hi. apply in_seq in Hi.
  rewrite !cell_truediv by lia.
  reflexivity.
Qed.

(** C2: on every catalogue that has the fields the notebook reads,
    [generate_features_targets] returns a feature matrix with one row per
    galaxy and exactly 13 columns, laid out as: columns 0-3 the colour
    indices u-g, g-r, r-i, i-z; column 4 the eccentricity; columns 5-9
    the fourth moments m4_u, m4_g, m4_r, m4_i, m4_z; columns 10-12 the
    ratios petroR50 / petroR90 for the bands u, r, z; and with it one
    class label per row, the ['class'] field as a [<U20] cell holds
    it. *)
Theorem generate_features_targets_layout (np : numpy_rt) (data : recarray)
  (g : galaxy_columns) :
  has_schema data g ->
  exists features targets,
    generate_features_targets np data = Ok (features, targets)
    /\ length features = nrows data
    /\ length targets = nrows data
    /\ (forall row, In row features -> length row = 13%nat)
    /\ (forall i, (i < nrows data)%nat ->
          nth i features [] = feature_row g i
          /\ nth i targets [] = U_cast 20 (nth i (col_class g) [])).
Proof.
  intros Hs. pose proof Hs as [[_ Lc] _].
  exists (map (feature_row g) (seq 0 (nrows data))),
         (map (U_cast 20) (col_class g)).
  split; [apply generate_features_targets_closed_form; exact Hs|].
  split; [rewrite length_map, length_seq; reflexivity|].
  split; [rewrite length_map; exact Lc|].
  split.
  - intros row Hin. apply in_map_iff in Hin as (i & <- & _). reflexivity.
  - intros i Hi. split.
    + rewrite (nth_indep _ [] (feature_row g 0))
        by (rewrite length_map, length_seq; exact Hi).
      rewrite map_nth, seq_nth by exact Hi. reflexivity.
    + rewrite (nth_indep _ [] (U_cast 20 []))
        by (rewrite length_map, Lc; exact Hi).
      rewrite map_nth. reflexivity.
Qed.

Lemma generate_features_targets_layout_witness :
  exists features targets,
    generate_features_targets example_numpy example_catalogue
    = Ok (features, targets)
    /\ length features = 3%nat
    /\ length targets = 3%nat
    /\ (forall row, In row features -> length row = 13%nat)
    /\ (forall i, (i < 3)%nat ->
          nth i features [] = feature_row example_columns i
          /\ nth i targets []
             = U_cast 20 (nth i (col_class example_columns) [])).
Proof.
  apply (@generate_features_targets_layout
           example_numpy example_catalogue example_columns).
  unfold has_schema, has_str_field, has_float_field.
  repeat split; reflexivity.
Defined.

(* ===================================================================== *)
(** * Fixed-width class labels                                            *)
(* ===================================================================== *)

Lemma rstrip_nul_nuls (k : nat) : rstrip_nul (repeat NUL k) = [].
Proof.
  induction k as [|k IH]; cbn [repeat rstrip_nul]; [reflexivity|].
  rewrite IH. reflexivity.
Qed.

Lemma rstrip_nul_padding (s : str) (k : nat) :
  rstrip_nul (s ++ repeat NUL k) = rstrip_nul s.
Proof.
  induction s as [|c s IH]; cbn [app rstrip_nul].
  - apply rstrip_nul_nuls.
  - rewrite IH. reflexivity.
Qed.

(** Writing into a [<Uw] cell and reading back keeps the first [w]
    characters, less the NULs at their end. *)
Lemma U_cast_firstn (w : nat) (s : str) :
  U_cast w s = U_load (firstn w s).
Proof. unfold U_cast, U_load, U_store. apply rstrip_nul_padding. Qed.

Lemma rstrip_nul_last (s : str) :
  last s NUL <> NUL -> rstrip_nul s = s.
Proof.
  induction s as [|c s IH]; [reflexivity|].
  destruct s as [|c' s].
  - cbn [last rstrip_nul]. intros Hc.
    destruct (N.eqb_spec c NUL); congruence.
  - intros Hl. change (last (c :: c' :: s) NUL) with (last (c' :: s) NUL) in Hl.
    cbn [rstrip_nul] in *. rewrite (IH Hl). reflexivity.
Qed.

Lemma last_firstn_nth (k : nat) :
  forall s : str, (k < length s)%nat -> last (firstn (S k) s) NUL = nth k s NUL.
Proof.
  induction k as [|k IH]; intros [|c s] Hlen; cbn [length] in Hlen; try lia.
  - reflexivity.
  - change (firstn (S (S k)) (c :: s)) with (c :: firstn (S k) s).
    cbn [nth]. rewrite <- IH by lia.
    destruct s as [|c' s]; [cbn [length] in Hlen; lia|]. reflexivity.
Qed.

(** C10, as the code has it: [generate_features_targets] stores the
    labels in a [<U20] array.  For every row, a class label (as numpy
    reads it from the catalogue, so without NUL at its end) of at most 20
    characters is returned unchanged; a longer one is cut to its first
    20 characters, of which the NULs at the end are dropped as well, so
    that it comes back as exactly its first 20 characters when the
    twentieth is not NUL. *)
Theorem class_label_fixed_width (np : numpy_rt) (data : recarray)
  (g : galaxy_columns) (i : nat) :
  has_schema data g ->
  (i < nrows data)%nat ->
  U_load (nth i (col_class g) []) = nth i (col_class g) [] ->
  exists features targets,
    generate_features_targets np data = Ok (features, targets)
    /\ ((length (nth i (col_class g) []) <= 20)%nat ->
        nth i targets [] = nth i (col_class g) [])
    /\ ((20 < length (nth i (col_class g) []))%nat ->
        nth i targets [] = U_load (firstn 20 (nth i (col_class g) []))
        /\ (nth 19 (nth i (col_class g) []) NUL <> NUL ->
            nth i targets [] = firstn 20 (nth i (col_class g) []))).
Proof.
  intros Hs Hi Hread. pose proof Hs as [[_ Lc] _].
  exists (map (feature_row g) (seq 0 (nrows data))),
         (map (U_cast 20) (col_class g)).
  split; [apply generate_features_targets_closed_form; exact Hs|].
  rewrite (nth_indep (map (U_cast 20) (col_class g)) [] (U_cast 20 []))
    by (rewrite length_map, Lc; exact Hi).
  rewrite map_nth, U_cast_firstn.
  split.
  - intros Hshort. rewrite firstn_all2 by exact Hshort. exact Hread.
  - intros Hlong. split; [reflexivity|].
    intros Hnz. apply rstrip_nul_last.
    rewrite last_firstn_nth by lia. exact Hnz.
Qed.

Lemma class_label_fixed_width_witness :
  exists features targets,
    generate_features_targets example_numpy example_catalogue
    = Ok (features, targets)
    /\ ((length (chars_of "elliptical") <= 20)%nat ->
        nth 1 targets [] = chars_of "elliptical")
    /\ ((20 < length (chars_of "elliptical"))%nat ->
        nth 1 targets [] = U_load (firstn 20 (chars_of "elliptical"))
        /\ (nth 19 (chars_of "elliptical") NUL <> NUL ->
            nth 1 targets [] = firstn 20 (chars_of "elliptical"))).
Proof.
  apply (@class_label_fixed_width
           example_numpy example_catalogue example_columns 1%nat).
  - unfold has_schema, has_str_field, has_float_field.
    repeat split; reflexivity.
  - cbn [nrows example_catalogue catalogue_of]. lia.
  - reflexivity.
Defined.

(** C10, as stated, fails: the class label [label_with_nul] has 21
    characters and is one numpy can hold, yet the label returned for its
    row is not its first 20 characters; it has 19. *)
Lemma class_label_truncation_counterexample :
  exists features targets,
    generate_features_targets example_numpy nul_catalogue
    = Ok (features, targets)
    /\ has_schema nul_catalogue nul_columns
    /\ nth 0 (col_class nul_columns) [] = label_with_nul
    /\ U_load label_with_nul = label_with_nul
    /\ (20 < length label_with_nul)%nat
    /\ nth 0 targets [] <> firstn 20 label_with_nul
    /\ length (nth 0 targets []) = 19%nat.
Proof.
  eexists. eexists.
  split; [vm_compute; reflexivity|].
  split; [unfold has_schema, has_str_field, has_float_field;
          repeat split; reflexivity|].
  split; [reflexivity|].
  split; [reflexivity|].
  split; [vm_compute; reflexivity|].
  split; [vm_compute; discriminate|reflexivity].
Qed.

(* ===================================================================== *)
(** * Runs in a quiet runtime                                             *)
(* ===================================================================== *)

Section Quiet.
Variable rt : runtime.
Hypothesis Hquiet : quiet rt.

Lemma bind_call_quiet {B} (e : event) (k : unit -> M B) (h : list event) :
  Run.bind (Run.call rt e) k h = k tt (h ++ [e]).
Proof. unfold Run.bind, Run.call. rewrite Hquiet. reflexivity. Qed.

Lemma call_quiet (e : event) (h : list event) :
  Run.call rt e h = (h ++ [e], Ok tt).
Proof. unfold Run.call. rewrite Hquiet. reflexivity. Qed.

Lemma for_each_quiet {A} (ev : A -> event) (xs : list A) :
  forall h,
    Run.for_each xs (fun x => Run.call rt (ev x)) h = (h ++ map ev xs, Ok tt).
Proof.
  induction xs as [|x xs IH]; intros h; cbn [Run.for_each map].
  - unfold Run.ret. rewrite app_nil_r. reflexivity.
  - rewrite bind_call_quiet, IH, <- app_assoc. reflexivity.
Qed.

Lemma bind_for_each_quiet {A B} (ev : A -> event) (xs : list A)
  (k : unit -> M B) (h : list event) :
  Run.bind (Run.for_each xs (fun x => Run.call rt (ev x))) k h
  = k tt (h ++ map ev xs).
Proof. unfold Run.bind at 1. rewrite for_each_quiet. reflexivity. Qed.

(** The whole of [plot_confusion_matrix] when nothing raises but,
    possibly, the maximum of a matrix without cells. *)
Lemma plot_confusion_matrix_quiet (cm : list (list Z)) (classes : list str)
  (normalize : bool) (title cmap : string) (h : list event) :
  plot_confusion_matrix rt cm classes normalize title cmap h
  = match np_max (normalized_or_raw cm normalize) with
    | Ok _ =>
        (h ++ plot_head cm classes normalize title cmap
           ++ map (annotation (normalized_or_raw cm normalize))
                  (cells (normalized_or_raw cm normalize))
           ++ plot_tail,
         Ok tt)
    | Err e => (h ++ plot_head cm classes normalize title cmap, Err e)
    end.
Proof.
  unfold plot_confusion_matrix.
  rewrite !bind_call_quiet.
  assert (Hbranch :
    forall B (k : ndarray2 -> M B) h',
      Run.bind
        (if normalize
         then Run.bind (Run.call rt (print [PStr "Normalized confusion matrix"]))
                (fun _ => Run.ret (FloatArr (row_normalize cm)))
         else Run.bind
                (Run.call rt
                   (print [PStr "Confusion matrix, without normalization"]))
                (fun _ => Run.ret (IntArr cm))) k h'
      = k (normalized_or_raw cm normalize)
          (h' ++ [print [PStr (if normalize
                               then "Normalized confusion matrix"
                               else "Confusion matrix, without normalization")%string]])).
  { intros B k h'. unfold Run.bind at 1.
    destruct normalize; rewrite bind_call_quiet; reflexivity. }
  rewrite Hbranch. rewrite bind_call_quiet.
  unfold annotation, cells, plot_head, plot_tail.
  set (cm' := normalized_or_raw cm normalize).
  unfold Run.bind at 1, Run.lift at 1.
  destruct (np_max cm') as [mx|e] eqn:Emx.
  - assert (Hdiv : truediv mx (NpFloat64 2) = Ok (NpFloat64 (to_float mx / 2))).
    { destruct mx; reflexivity. }
    unfold Run.bind at 1, Run.lift at 1. rewrite Hdiv.
    rewrite (bind_for_each_quiet
               (fun ij => plt_text (Z.of_nat (snd ij)) (Z.of_nat (fst ij))
                            (item cm' (fst ij) (snd ij)) "center"
                            (text_color (item cm' (fst ij) (snd ij))
                               (NpFloat64 (to_float mx / 2))))).
    rewrite !bind_call_quiet, call_quiet.
    unfold thresh_of, text_color. rewrite Emx.
    repeat rewrite <- app_assoc. reflexivity.
  - repeat rewrite <- app_assoc. reflexivity.
Qed.
End Quiet.

(* ===================================================================== *)
(** * The cells of a matrix                                               *)
(* ===================================================================== *)

Lemma product_nil_r {A B} (xs : list A) : product xs (@nil B) = [].
Proof. induction xs as [|x xs IH]; [reflexivity|exact IH]. Qed.

Lemma in_product {A B} (xs : list A) (ys : list B) (x : A) (y : B) :
  In (x, y) (product xs ys) <-> In x xs /\ In y ys.
Proof.
  unfold product. rewrite in_flat_map. split.
  - intros (a & Ha & Hin). apply in_map_iff in Hin as (b & Heq & Hb).
    injection Heq as <- <-. split; assumption.
  - intros [Hx Hy]. exists x. split; [assumption|].
    apply in_map_iff. exists y. split; [reflexivity|assumption].
Qed.

Lemma in_cells (cm : ndarray2) (i j : nat) :
  In (i, j) (cells cm) <-> (i < shape0 cm)%nat /\ (j < shape1 cm)%nat.
Proof.
  unfold cells, range. rewrite in_product, !in_seq. lia.
Qed.

Lemma filter_eqb_seq (j n : nat) :
  forall s,
    filter (fun k => Nat.eqb k j) (seq s n)
    = if (Nat.leb s j && Nat.ltb j (s + n))%bool then [j] else [].
Proof.
  induction n as [|n IH]; intros s; cbn [seq filter].
  - destruct (Nat.leb_spec s j), (Nat.ltb_spec j (s + 0)); cbn; try reflexivity; lia.
  - rewrite IH.
    destruct (Nat.eqb_spec s j) as [->|Hne].
    + rewrite Nat.leb_refl.
      destruct (Nat.leb_spec (S j) j), (Nat.ltb_spec j (j + S n)); cbn;
        try reflexivity; lia.
    + destruct (Nat.leb_spec (S s) j), (Nat.leb_spec s j),
        (Nat.ltb_spec j (S s + n)), (Nat.ltb_spec j (s + S n)); cbn;
        try reflexivity; lia.
Qed.

Lemma filter_pair_row (x i j : nat) (ys : list nat) :
  filter (fun p => (Nat.eqb (fst p) i && Nat.eqb (snd p) j)%bool)
         (map (fun y => (x, y)) ys)
  = if Nat.eqb x i then map (fun y => (x, y)) (filter (fun y => Nat.eqb y j) ys)
    else [].
Proof.
  induction ys as [|y ys IH]; cbn [map filter fst snd].
  - destruct (Nat.eqb x i); reflexivity.
  - rewrite IH. destruct (Nat.eqb x i), (Nat.eqb y j); reflexivity.
Qed.

Lemma filter_product_cell (xs ys : list nat) (i j : nat) :
  filter (fun p => (Nat.eqb (fst p) i && Nat.eqb (snd p) j)%bool) (product xs ys)
  = product (filter (fun x => Nat.eqb x i) xs) (filter (fun y => Nat.eqb y j) ys).
Proof.
  unfold product.
  induction xs as [|x xs IH]; cbn [flat_map filter]; [reflexivity|].
  rewrite filter_app, IH, filter_pair_row.
  destruct (Nat.eqb x i); reflexivity.
Qed.

(** Every cell occurs exactly once among the cells. *)
Lemma filter_cells (cm : ndarray2) (i j : nat) :
  (i < shape0 cm)%nat -> (j < shape1 cm)%nat ->
  filter (fun p => (Nat.eqb (fst p) i && Nat.eqb (snd p) j)%bool) (cells cm)
  = [(i, j)].
Proof.
  intros Hi Hj. unfold cells, range.
  rewrite filter_product_cell, !filter_eqb_seq.
  destruct (Nat.ltb_spec i (0 + shape0 cm)), (Nat.ltb_spec j (0 + shape1 cm));
    try lia.
  reflexivity.
Qed.

Lemma concat_nil_hd {A} (rows : list (list A)) :
  concat rows = [] -> hd [] rows = [].
Proof.
  destruct rows as [|r rows]; [reflexivity|]. cbn [concat hd].
  intros H. apply app_eq_nil in H. tauto.
Qed.

(** A matrix that has no maximum has no cell. *)
Lemma np_max_error_no_cells (cm : ndarray2) (e : exn) :
  np_max cm = Err e -> cells cm = [].
Proof.
  unfold cells, range.
  destruct cm as [rows|rows]; cbn [np_max shape0 shape1];
    destruct (concat rows) eqn:E; try discriminate; intros _;
    rewrite (concat_nil_hd E); apply product_nil_r.
Qed.

Lemma Z_eqb_of_nat (a b : nat) : Z.eqb (Z.of_nat a) (Z.of_nat b) = Nat.eqb a b.
Proof.
  destruct (Z.eqb_spec (Z.of_nat a) (Z.of_nat b)), (Nat.eqb_spec a b);
    try reflexivity; lia.
Qed.

Lemma filter_is_text_annotations (cm : ndarray2) (l : list (nat * nat)) :
  filter is_text (map (annotation cm) l) = map (annotation cm) l.
Proof.
  induction l as [|p l IH]; cbn [map filter annotation is_text];
    [reflexivity|]. rewrite IH. reflexivity.
Qed.

Lemma filter_text_on_annotations (cm : ndarray2) (i j : nat) (l : list (nat * nat)) :
  filter (text_on i j) (map (annotation cm) l)
  = map (annotation cm)
        (filter (fun p => (Nat.eqb (fst p) i && Nat.eqb (snd p) j)%bool) l).
Proof.
  induction l as [|p l IH]; cbn [map filter]; [reflexivity|].
  rewrite IH. unfold annotation at 1, text_on at 1.
  rewrite !Z_eqb_of_nat, andb_comm.
  destruct (Nat.eqb (fst p) i && Nat.eqb (snd p) j)%bool; reflexivity.
Qed.

(* ===================================================================== *)
(** * Annotation of the heatmap                                           *)
(* ===================================================================== *)

(** C5: in a run where no plotting call raises, [plot_confusion_matrix]
    visits the full Cartesian product of the row and column indices of
    [cm] (as bound after the [normalize] statement: the argument itself
    when [normalize] is false) in row-major order, and places exactly one
    text on each cell [(i, j)]: the value [cm[i, j]], white when
    [cm[i, j] > cm.max() / 2] and black otherwise.  It places no other
    text. *)
Theorem plot_confusion_matrix_annotates_each_cell (rt : runtime)
  (cm : list (list Z)) (classes : list str) (normalize : bool)
  (title cmap : string) (h : list event) :
  quiet rt ->
  exists added,
    fst (plot_confusion_matrix rt cm classes normalize title cmap h)
    = h ++ added
    /\ filter is_text added
       = map (annotation (normalized_or_raw cm normalize))
             (cells (normalized_or_raw cm normalize))
    /\ (forall i j,
          In (i, j) (cells (normalized_or_raw cm normalize))
          <-> (i < shape0 (normalized_or_raw cm normalize))%nat
              /\ (j < shape1 (normalized_or_raw cm normalize))%nat)
    /\ (forall i j,
          (i < shape0 (normalized_or_raw cm normalize))%nat ->
          (j < shape1 (normalized_or_raw cm normalize))%nat ->
          filter (text_on i j) added
          = [ plt_text (Z.of_nat j) (Z.of_nat i)
                (item (normalized_or_raw cm normalize) i j) "center"
                (if scalar_gt (item (normalized_or_raw cm normalize) i j)
                              (thresh_of (normalized_or_raw cm normalize))
                 then "white" else "black")%string ]).
Proof.
  intros Hq. rewrite (plot_confusion_matrix_quiet Hq).
  set (cm' := normalized_or_raw cm normalize).
  destruct (np_max cm') as [mx|e] eqn:Emx; cbn [fst].
  - exists (plot_head cm classes normalize title cmap
            ++ map (annotation cm') (cells cm') ++ plot_tail).
    split; [reflexivity|].
    split; [|split].
    + rewrite !filter_app, filter_is_text_annotations.
      cbn [plot_head plot_tail filter is_text app].
      rewrite app_nil_r. reflexivity.
    + intros i j. apply in_cells.
    + intros i j Hi Hj.
      rewrite !filter_app, filter_text_on_annotations, filter_cells
        by assumption.
      cbn [plot_head plot_tail filter text_on app map]. reflexivity.
  - exists (plot_head cm classes normalize title cmap).
    split; [reflexivity|].
    pose proof (np_max_error_no_cells Emx) as Hnone.
    split; [|split].
    + rewrite Hnone. reflexivity.
    + intros i j. apply in_cells.
    + intros i j Hi Hj. exfalso.
      assert (Hin : In (i, j) (cells cm')) by (apply in_cells; lia).
      rewrite Hnone in Hin. exact Hin.
Qed.

Lemma plot_confusion_matrix_annotates_each_cell_witness :
  exists added,
    fst (plot_confusion_matrix example_runtime [[2; 0]; [1; 3]]
           [chars_of "spiral"; chars_of "merger"] false "Confusion matrix"
           "Blues" [plt_figure])
    = [plt_figure] ++ added
    /\ filter is_text added
       = map (annotation (IntArr [[2; 0]; [1; 3]])) [(0, 0); (0, 1); (1, 0); (1, 1)]%nat
    /\ (forall i j,
          In (i, j) [(0, 0); (0, 1); (1, 0); (1, 1)]%nat
          <-> (i < 2)%nat /\ (j < 2)%nat)
    /\ (forall i j,
          (i < 2)%nat -> (j < 2)%nat ->
          filter (text_on i j) added
          = [ plt_text (Z.of_nat j) (Z.of_nat i)
                (item (IntArr [[2; 0]; [1; 3]]) i j) "center"
                (if scalar_gt (item (IntArr [[2; 0]; [1; 3]]) i j)
                              (thresh_of (IntArr [[2; 0]; [1; 3]]))
                 then "white" else "black")%string ]).
Proof.
  apply (@plot_confusion_matrix_annotates_each_cell example_runtime
           [[2; 0]; [1; 3]] [chars_of "spiral"; chars_of "merger"] false
           "Confusion matrix" "Blues" [plt_figure]).
  intros h e. reflexivity.
Defined.

(* ===================================================================== *)
(** * Normalisation comes after the image                                 *)
(* ===================================================================== *)

Lemma item_row_normalize (cm : list (list Z)) (i j : nat) :
  (i < length cm)%nat -> (j < length (nth i cm []))%nat ->
  item (FloatArr (row_normalize cm)) i j
  = NpFloat64 (float_of_Z (nth j (nth i cm []) 0)
               / float_of_Z (sum_int64 (nth i cm []))).
Proof.
  intros Hi Hj. unfold item, row_normalize. f_equal.
  set (f := fun row : list Z =>
              map (fun x => (float_of_Z x / float_of_Z (sum_int64 row))%float) row).
  change (@nil float) with (f []).
  rewrite map_nth. unfold f.
  set (g := fun x => (float_of_Z x / float_of_Z (sum_int64 (nth i cm [])))%float).
  rewrite (nth_indep _ nan (g 0)) by (rewrite length_map; exact Hj).
  rewrite map_nth. reflexivity.
Qed.

Lemma shape_row_normalize (cm : list (list Z)) :
  shape0 (FloatArr (row_normalize cm)) = length cm
  /\ shape1 (FloatArr (row_normalize cm)) = length (hd [] cm).
Proof.
  unfold shape0, shape1, row_normalize. rewrite length_map.
  split; [reflexivity|].
  destruct cm as [|row cm]; [reflexivity|]. cbn [map hd].
  apply length_map.
Qed.

Lemma filter_is_imshow_annotations (cm : ndarray2) (l : list (nat * nat)) :
  filter is_imshow (map (annotation cm) l) = [].
Proof.
  induction l as [|p l IH]; cbn [map filter annotation is_imshow];
    [reflexivity|exact IH].
Qed.

(** C9: with [normalize=True] (and no plotting call raising) the heat map
    is rendered, once and first, from the raw matrix, whereas the matrix
    printed is the row-normalised one and the text on each cell is
    [cm[i, j]] divided by the sum of row [i]; so on every cell whose
    normalised value differs from its raw value, the image and the
    annotation disagree. *)
Theorem normalize_annotates_what_the_image_does_not_show (rt : runtime)
  (cm : list (list Z)) (classes : list str) (title cmap : string)
  (h : list event) :
  quiet rt ->
  exists rest,
    fst (plot_confusion_matrix rt cm classes true title cmap h)
    = h ++ plt_imshow (IntArr cm) "nearest" cmap :: rest
    /\ filter is_imshow rest = []
    /\ In (print [PArray (FloatArr (row_normalize cm))]) rest
    /\ (forall i j,
          (i < length cm)%nat -> (j < length (nth i cm []))%nat ->
          (j < length (hd [] cm))%nat ->
          (exists color,
              filter (text_on i j) rest
              = [ plt_text (Z.of_nat j) (Z.of_nat i)
                    (NpFloat64 (float_of_Z (nth j (nth i cm []) 0)
                                / float_of_Z (sum_int64 (nth i cm []))))
                    "center" color ])
          /\ (float_of_Z (nth j (nth i cm []) 0)
              <> (float_of_Z (nth j (nth i cm []) 0%Z)
                  / float_of_Z (sum_int64 (nth i cm [])))%float ->
              disagree_on
                (fst (plot_confusion_matrix rt cm classes true title cmap h))
                i j)).
Proof.
  intros Hq. rewrite (plot_confusion_matrix_quiet Hq).
  cbn [normalized_or_raw].
  set (cm' := FloatArr (row_normalize cm)).
  destruct (shape_row_normalize cm) as [Hs0 Hs1]. fold cm' in Hs0, Hs1.
  assert (Hcell :
    forall i j,
      (i < length cm)%nat -> (j < length (nth i cm []))%nat ->
      (j < length (hd [] cm))%nat ->
      exists color,
        filter (text_on i j) (map (annotation cm') (cells cm'))
        = [ plt_text (Z.of_nat j) (Z.of_nat i)
              (NpFloat64 (float_of_Z (nth j (nth i cm []) 0)
                          / float_of_Z (sum_int64 (nth i cm []))))
              "center" color ]).
  { intros i j Hi Hj Hj'.
    rewrite filter_text_on_annotations, filter_cells by lia.
    cbn [map]. unfold annotation, cm'. cbn [fst snd].
    rewrite item_row_normalize by assumption.
    eexists. reflexivity. }
  destruct (np_max cm') as [mx|e] eqn:Emx; cbn [fst].
  - exists (tl (plot_head cm classes true title cmap)
            ++ map (annotation cm') (cells cm') ++ plot_tail).
    split; [reflexivity|].
    split; [|split].
    + rewrite !filter_app, filter_is_imshow_annotations. reflexivity.
    + cbn [plot_head tl normalized_or_raw]. apply in_or_app. left.
      cbn [In]. tauto.
    + intros i j Hi Hj Hj'.
      destruct (Hcell i j Hi Hj Hj') as [color Hc].
      split.
      * exists color.
        rewrite !filter_app, Hc.
        cbn [plot_head plot_tail tl filter text_on app]. reflexivity.
      * intros Hne.
        exists (IntArr cm), "nearest"%string, cmap,
          (NpFloat64 (float_of_Z (nth j (nth i cm []) 0)
                      / float_of_Z (sum_int64 (nth i cm [])))),
          "center"%string, color.
        split; [apply in_or_app; right; cbn [plot_head app In]; tauto|].
        split; [|exact Hne].
        apply in_or_app. right. apply in_or_app. right.
        apply in_or_app. left.
        assert (Hin : In (plt_text (Z.of_nat j) (Z.of_nat i)
                            (NpFloat64 (float_of_Z (nth j (nth i cm []) 0)
                                        / float_of_Z (sum_int64 (nth i cm []))))
                            "center" color)
                         (filter (text_on i j)
                                 (map (annotation cm') (cells cm'))))
          by (rewrite Hc; cbn [In]; tauto).
        apply filter_In in Hin. tauto.
  - exists (tl (plot_head cm classes true title cmap)).
    split; [reflexivity|].
    split; [reflexivity|].
    split; [cbn [plot_head tl normalized_or_raw In]; tauto|].
    intros i j Hi Hj Hj'. exfalso.
    assert (Hin : In (i, j) (cells cm')) by (apply in_cells; lia).
    rewrite (np_max_error_no_cells Emx) in Hin. exact Hin.
Qed.

Lemma normalize_annotates_what_the_image_does_not_show_witness :
  exists rest,
    fst (plot_confusion_matrix example_runtime [[2; 0]; [1; 3]]
           [chars_of "spiral"; chars_of "merger"] true "Confusion matrix"
           "Blues" [plt_figure])
    = [plt_figure] ++ plt_imshow (IntArr [[2; 0]; [1; 3]]) "nearest" "Blues" :: rest
    /\ filter is_imshow rest = []
    /\ In (print [PArray (FloatArr [[1; 0]; [0.25; 0.75]]%float)]) rest
    /\ disagree_on
         (fst (plot_confusion_matrix example_runtime [[2; 0]; [1; 3]]
                 [chars_of "spiral"; chars_of "merger"] true "Confusion matrix"
                 "Blues" [plt_figure]))
         1 1.
Proof.
  destruct (@normalize_annotates_what_the_image_does_not_show example_runtime
              [[2; 0]; [1; 3]] [chars_of "spiral"; chars_of "merger"]
              "Confusion matrix" "Blues" [plt_figure])
    as (rest & Htrace & Himage & Hprint & Hcells).
  - intros h e. reflexivity.
  - exists rest. split; [exact Htrace|]. split; [exact Himage|].
    split; [exact Hprint|].
    apply (Hcells 1%nat 1%nat); cbn [length nth hd]; try lia.
    intros Heq.
    apply (f_equal (fun x => (x <? 1)%float)) in Heq.
    vm_compute in Heq. discriminate.
Defined.

(* ===================================================================== *)
(** * The labels of the confusion matrix                                  *)
(* ===================================================================== *)

Lemma insert_by_perm (rank : str -> N) (x : str) (l : list str) :
  Permutation (insert_by rank x l) (x :: l).
Proof.
  induction l as [|y l IH]; cbn [insert_by]; [reflexivity|].
  destruct (rank x <? rank y)%N; [reflexivity|].
  rewrite IH. apply perm_swap.
Qed.

Lemma sort_by_perm (rank : str -> N) (l : list str) :
  Permutation (sort_by rank l) l.
Proof.
  induction l as [|x l IH]; cbn [sort_by fold_right]; [reflexivity|].
  fold (sort_by rank l). rewrite insert_by_perm. constructor. exact IH.
Qed.

(** [list(set(xs))] lists every label of [xs] once. *)
Lemma list_of_set_spec (rank : str -> N) (xs : list str) :
  NoDup (list_of_set rank xs)
  /\ (forall s, In s (list_of_set rank xs) <-> In s xs)
  /\ length (list_of_set rank xs) = n_distinct xs.
Proof.
  unfold list_of_set, n_distinct.
  pose proof (sort_by_perm rank (nodup str_eq_dec xs)) as Hp.
  split; [|split].
  - apply (Permutation_NoDup (Permutation_sym Hp)). apply NoDup_nodup.
  - intros s. split; intros H.
    + apply (nodup_In str_eq_dec). apply (Permutation_in _ Hp H).
    + apply (Permutation_in _ (Permutation_sym Hp)).
      apply (nodup_In str_eq_dec). exact H.
  - apply Permutation_length. exact Hp.
Qed.

Lemma str_eqb_eq (a b : str) : str_eqb a b = true <-> a = b.
Proof. unfold str_eqb. destruct (str_eq_dec a b); split; congruence. Qed.

Lemma str_eqb_refl (a : str) : str_eqb a a = true.
Proof. apply str_eqb_eq. reflexivity. Qed.

Lemma str_eqb_neq (a b : str) : str_eqb a b = false <-> a <> b.
Proof. unfold str_eqb. destruct (str_eq_dec a b); split; congruence. Qed.

(** The index found for a label is a position of that label. *)
Lemma label_to_ind_from_sound (labels : list str) (s : str) :
  forall k a,
    label_to_ind_from k labels s = Some a ->
    (k <= a < k + length labels)%nat /\ nth (a - k) labels [] = s.
Proof.
  induction labels as [|l labels IH]; intros k a; cbn [label_to_ind_from];
    [discriminate|].
  destruct (label_to_ind_from (S k) labels s) as [b|] eqn:E.
  - intros H. injection H as <-. destruct (IH _ _ E) as [Hb Hn].
    cbn [length]. split; [lia|].
    replace (b - k)%nat with (S (b - S k)) by lia. exact Hn.
  - destruct (str_eqb l s) eqn:El; [|discriminate].
    intros H. injection H as <-. cbn [length]. split; [lia|].
    rewrite Nat.sub_diag. apply str_eqb_eq. exact El.
Qed.

Lemma label_to_ind_from_absent (labels : list str) (s : str) :
  forall k, ~ In s labels -> label_to_ind_from k labels s = None.
Proof.
  induction labels as [|l labels IH]; intros k Hin; cbn [label_to_ind_from];
    [reflexivity|].
  rewrite IH by (intros H; apply Hin; right; exact H).
  destruct (str_eqb l s) eqn:El; [|reflexivity].
  apply str_eqb_eq in El. exfalso. apply Hin. left. exact El.
Qed.

(** Among labels without repetition, the index found for the label at
    position [i] is [i]. *)
Lemma label_to_ind_from_complete (labels : list str) :
  forall k i,
    NoDup labels -> (i < length labels)%nat ->
    label_to_ind_from k labels (nth i labels []) = Some (k + i)%nat.
Proof.
  induction labels as [|l labels IH]; intros k i Hnd Hi; cbn [length] in Hi;
    [lia|].
  inversion Hnd as [|? ? Hnotin Hnd']; subst.
  cbn [label_to_ind_from]. destruct i as [|i]; cbn [nth].
  - rewrite label_to_ind_from_absent by exact Hnotin.
    rewrite str_eqb_refl. f_equal. lia.
  - rewrite IH by (assumption || lia). f_equal. lia.
Qed.

Lemma label_to_ind_sound (labels : list str) (s : str) (a : nat) :
  label_to_ind labels s = Some a ->
  (a < length labels)%nat /\ nth a labels [] = s.
Proof.
  intros H. destruct (label_to_ind_from_sound H) as [Ha Hn].
  rewrite Nat.sub_0_r in Hn. split; [lia|exact Hn].
Qed.

Lemma label_to_ind_complete (labels : list str) (i : nat) :
  NoDup labels -> (i < length labels)%nat ->
  label_to_ind labels (nth i labels []) = Some i.
Proof.
  intros Hnd Hi. unfold label_to_ind.
  rewrite label_to_ind_from_complete by assumption. reflexivity.
Qed.

(* ===================================================================== *)
(** * Updating a matrix of counts                                         *)
(* ===================================================================== *)

Lemma length_list_set {A} (k : nat) (v : A) (l : list A) :
  length (list_set k v l) = length l.
Proof.
  revert k. induction l as [|x l IH]; intros [|k]; cbn [list_set length];
    try reflexivity. rewrite IH. reflexivity.
Qed.

Lemma nth_list_set_eq {A} (k : nat) (v d : A) (l : list A) :
  (k < length l)%nat -> nth k (list_set k v l) d = v.
Proof.
  revert k. induction l as [|x l IH]; intros [|k] Hk; cbn [length] in Hk;
    cbn [list_set nth]; try lia; [reflexivity|]. apply IH. lia.
Qed.

Lemma nth_list_set_neq {A} (a k : nat) (v d : A) (l : list A) :
  a <> k -> nth a (list_set k v l) d = nth a l d.
Proof.
  revert a k. induction l as [|x l IH]; intros [|a] [|k] Hne;
    cbn [list_set nth]; try reflexivity; try congruence.
  apply IH. congruence.
Qed.

Lemma Forall_list_set {A} (P : A -> Prop) (k : nat) (v : A) (l : list A) :
  Forall P l -> ((k < length l)%nat -> P v) -> Forall P (list_set k v l).
Proof.
  revert k. induction l as [|x l IH]; intros [|k] Hall Hv; cbn [list_set];
    try assumption; inversion Hall; subst; constructor; try assumption.
  - apply Hv. cbn [length]. lia.
  - apply IH; [assumption|]. intros Hk. apply Hv. cbn [length]. lia.
Qed.

Lemma square_row (n : nat) (m : list (list Z)) (i : nat) :
  square n m -> (i < n)%nat -> length (nth i m []) = n.
Proof.
  intros [Hlen Hall] Hi. rewrite Forall_forall in Hall.
  apply Hall. apply nth_In. lia.
Qed.

Lemma square_zeros (n : nat) : square n (zeros n n).
Proof.
  unfold square, zeros. split; [apply repeat_length|].
  apply Forall_forall. intros row Hrow.
  apply repeat_spec in Hrow. subst. apply repeat_length.
Qed.

Lemma mcell_zeros (n i j : nat) : mcell (zeros n n) i j = 0.
Proof.
  unfold mcell, zeros.
  destruct (Nat.lt_ge_cases i n) as [Hi|Hi].
  - rewrite (nth_indep _ [] (repeat 0 n)) by (rewrite repeat_length; exact Hi).
    rewrite nth_repeat. apply nth_repeat.
  - rewrite (nth_overflow (repeat (repeat 0 n) n))
      by (rewrite repeat_length; exact Hi).
    destruct j; reflexivity.
Qed.

Lemma square_bump (n a b : nat) (m : list (list Z)) :
  square n m -> square n (bump a b m).
Proof.
  intros Hsq. pose proof Hsq as [Hlen Hall]. unfold square, bump.
  rewrite length_list_set. split; [exact Hlen|].
  apply Forall_list_set; [exact Hall|].
  intros Ha. rewrite length_list_set.
  apply (square_row Hsq). lia.
Qed.

Lemma mcell_bump (n a b : nat) (m : list (list Z)) (i j : nat) :
  square n m -> (a < n)%nat -> (b < n)%nat ->
  mcell (bump a b m) i j
  = if (Nat.eqb i a && Nat.eqb j b)%bool then wrap64 (mcell m a b + 1)
    else mcell m i j.
Proof.
  intros Hsq Ha Hb. pose proof Hsq as [Hlen _]. unfold mcell, bump.
  destruct (Nat.eqb_spec i a) as [->|Hia]; cbn [andb].
  - rewrite nth_list_set_eq by lia.
    destruct (Nat.eqb_spec j b) as [->|Hjb].
    + apply nth_list_set_eq. rewrite (square_row Hsq) by exact Ha. exact Hb.
    + apply nth_list_set_neq. exact Hjb.
  - rewrite nth_list_set_neq by exact Hia. reflexivity.
Qed.

Lemma square_count_sample (labels : list str) (n : nat) (m : list (list Z))
  (sample : str * str) :
  square n m -> square n (count_sample labels m sample).
Proof.
  intros Hsq. unfold count_sample.
  destruct (label_to_ind labels (fst sample));
    destruct (label_to_ind labels (snd sample));
    try exact Hsq. apply square_bump. exact Hsq.
Qed.

Lemma square_fold_count (labels : list str) (n : nat)
  (samples : list (str * str)) :
  forall m, square n m -> square n (fold_left (count_sample labels) samples m).
Proof.
  induction samples as [|s samples IH]; intros m Hsq; cbn [fold_left];
    [exact Hsq|]. apply IH. apply square_count_sample. exact Hsq.
Qed.

(** Which labels a sample must carry to be counted in the cell
    [(i, j)]. *)
Lemma label_matches (labels : list str) (s : str) (i : nat) :
  NoDup labels -> (i < length labels)%nat ->
  match label_to_ind labels s with
  | Some a => Nat.eqb i a
  | None => false
  end = str_eqb s (nth i labels []).
Proof.
  intros Hnd Hi.
  destruct (label_to_ind labels s) as [a|] eqn:E.
  - destruct (label_to_ind_sound E) as [Ha Hs]. subst s.
    destruct (Nat.eqb_spec i a) as [->|Hne].
    + symmetry. apply str_eqb_refl.
    + symmetry. apply str_eqb_neq. intros Heq. apply Hne.
      symmetry. apply (proj1 (NoDup_nth labels []) Hnd a i Ha Hi Heq).
  - symmetry. apply str_eqb_neq. intros ->.
    rewrite label_to_ind_complete in E by assumption. discriminate.
Qed.

Lemma mcell_count_sample (labels : list str) (n : nat) (m : list (list Z))
  (sample : str * str) (i j : nat) :
  NoDup labels -> length labels = n -> square n m ->
  (i < n)%nat -> (j < n)%nat ->
  mcell (count_sample labels m sample) i j
  = if (str_eqb (fst sample) (nth i labels [])
        && str_eqb (snd sample) (nth j labels []))%bool
    then wrap64 (mcell m i j + 1)
    else mcell m i j.
Proof.
  intros Hnd Hn Hsq Hi Hj.
  rewrite <- (label_matches (fst sample) Hnd (i := i)) by lia.
  rewrite <- (label_matches (snd sample) Hnd (i := j)) by lia.
  unfold count_sample.
  destruct (label_to_ind labels (fst sample)) as [a|] eqn:Ea;
    [|reflexivity].
  destruct (label_to_ind labels (snd sample)) as [b|] eqn:Eb;
    [|rewrite andb_false_r; reflexivity].
  destruct (label_to_ind_sound Ea) as [Ha _].
  destruct (label_to_ind_sound Eb) as [Hb _].
  rewrite (mcell_bump i j Hsq) by lia.
  destruct (Nat.eqb_spec i a) as [->|]; [|reflexivity].
  destruct (Nat.eqb_spec j b) as [->|]; reflexivity.
Qed.

(** The cells after all samples have been counted. *)
Lemma mcell_fold_count (labels : list str) (n : nat) :
  NoDup labels -> length labels = n ->
  forall (samples : list (str * str)) (m : list (list Z)),
    square n m ->
    (forall i j, (i < n)%nat -> (j < n)%nat ->
                 0 <= mcell m i j
                 /\ mcell m i j + Z.of_nat (length samples) < 2 ^ 63) ->
    forall i j, (i < n)%nat -> (j < n)%nat ->
      mcell (fold_left (count_sample labels) samples m) i j
      = mcell m i j
        + Z.of_nat (count_pairs (nth i labels []) (nth j labels []) samples).
Proof.
  intros Hnd Hn.
  induction samples as [|s samples IH]; intros m Hsq Hb i j Hi Hj;
    cbn [fold_left].
  - unfold count_pairs. cbn [filter length]. lia.
  - assert (Hstep :
      forall i' j', (i' < n)%nat -> (j' < n)%nat ->
        mcell (count_sample labels m s) i' j'
        = mcell m i' j'
          + Z.b2z (str_eqb (fst s) (nth i' labels [])
                   && str_eqb (snd s) (nth j' labels []))).
    { intros i' j' Hi' Hj'.
      rewrite (mcell_count_sample s Hnd Hn Hsq Hi' Hj').
      destruct (Hb i' j' Hi' Hj') as [H0 H1]. cbn [length] in H1.
      destruct (str_eqb (fst s) (nth i' labels [])
                && str_eqb (snd s) (nth j' labels []))%bool; cbn [Z.b2z];
        [apply wrap64_small|]; lia. }
    rewrite IH; try assumption.
    + rewrite Hstep by assumption. unfold count_pairs. cbn [filter].
      destruct (str_eqb (fst s) (nth i labels [])
                && str_eqb (snd s) (nth j labels []))%bool;
        cbn [Z.b2z length]; lia.
    + apply square_count_sample. exact Hsq.
    + intros i' j' Hi' Hj'. rewrite Hstep by assumption.
      destruct (Hb i' j' Hi' Hj') as [H0 H1]. cbn [length] in H1.
      destruct (str_eqb (fst s) (nth i' labels [])
                && str_eqb (snd s) (nth j' labels []))%bool; cbn [Z.b2z]; lia.
Qed.

(* ===================================================================== *)
(** * The confusion matrix of the main script                             *)
(* ===================================================================== *)

Lemma samples_with_count_pairs (actual predicted : list str) (t p : str) :
  length predicted = length actual ->
  samples_with actual predicted t p = count_pairs t p (combine actual predicted).
Proof.
  intros Hlen. unfold samples_with, count_pairs.
  apply (positions_combine (fun x y => str_eqb x t && str_eqb y p)%bool [] []).
  congruence.
Qed.

(** With the labels of [set(y_true)] and as many predictions as samples,
    scikit-learn's checks pass and every sample is counted. *)
Lemma confusion_matrix_runs (rank : str -> N) (actual predicted : list str) :
  length predicted = length actual -> actual <> [] ->
  confusion_matrix actual predicted (list_of_set rank actual)
  = Ok (fold_left (count_sample (list_of_set rank actual))
          (combine actual predicted)
          (zeros (n_distinct actual) (n_distinct actual))).
Proof.
  intros Hlen Hne.
  destruct (list_of_set_spec rank actual) as (Hnd & Hin & Hn).
  destruct actual as [|a0 actual]; [congruence|].
  assert (Ha0 : In a0 (list_of_set rank (a0 :: actual)))
    by (apply Hin; left; reflexivity).
  unfold confusion_matrix. rewrite Hn.
  rewrite Hlen, Nat.eqb_refl. cbn [negb].
  destruct (Nat.eqb_spec (n_distinct (a0 :: actual)) 0) as [H0|_].
  { rewrite <- Hn in H0. apply length_zero_iff_nil in H0.
    rewrite H0 in Ha0. destruct Ha0. }
  cbn [length Nat.eqb].
  destruct (forallb _ (list_of_set rank (a0 :: actual))) eqn:Eall;
    [|reflexivity].
  exfalso. rewrite forallb_forall in Eall.
  specialize (Eall a0 Ha0). apply negb_true_iff in Eall.
  cbn [existsb] in Eall. rewrite str_eqb_refl in Eall. discriminate.
Qed.

(* ===================================================================== *)
(** * The steps of the main script                                        *)
(* ===================================================================== *)

Lemma bind_ask_ok {A B} (ev : event) (a : A) (k : A -> M B) (h : list event) :
  Run.bind (Run.ask ev (Ok a)) k h = k a (h ++ [ev]).
Proof. reflexivity. Qed.

Lemma bind_lift_ok {A B} (a : A) (k : A -> M B) (h : list event) :
  Run.bind (Run.lift (Ok a)) k h = k a h.
Proof. reflexivity. Qed.

Lemma bind_ret {A B} (a : A) (k : A -> M B) (h : list event) :
  Run.bind (Run.ret a) k h = k a h.
Proof. reflexivity. Qed.

Lemma bind_bind {A B C} (m : M A) (f : A -> M B) (g : B -> M C)
  (h : list event) :
  Run.bind (Run.bind m f) g h = Run.bind m (fun a => Run.bind (f a) g) h.
Proof.
  unfold Run.bind. destruct (m h) as [h' [a|e]]; reflexivity.
Qed.

Lemma square_non_empty (n : nat) (m : list (list Z)) :
  square n m -> n <> 0%nat -> exists x t, concat m = x :: t.
Proof.
  intros [Hlen Hall] Hn.
  destruct m as [|row m]; cbn [length] in Hlen; [congruence|].
  inversion Hall as [|? ? Hrow _]; subst.
  destruct row as [|x row]; [cbn [length] in Hrow; discriminate|].
  cbn [concat app]. eexists. eexists. reflexivity.
Qed.

(** A confusion matrix has at least one cell, so it has a maximum. *)
Lemma confusion_matrix_has_max (y_true y_pred labels : list str)
  (m : list (list Z)) :
  confusion_matrix y_true y_pred labels = Ok m ->
  exists mx, np_max (IntArr m) = Ok (NpInt64 mx).
Proof.
  unfold confusion_matrix.
  destruct (negb (Nat.eqb (length y_true) (length y_pred))); [discriminate|].
  destruct (Nat.eqb_spec (length labels) 0) as [|Hn]; [discriminate|].
  assert (Hsq : square (length labels) m ->
                exists mx, np_max (IntArr m) = Ok (NpInt64 mx)).
  { intros Hsq. destruct (square_non_empty Hsq Hn) as (x & t & E).
    cbn [np_max]. rewrite E. eexists. reflexivity. }
  destruct (Nat.eqb (length y_true) 0).
  - intros H. injection H as <-. apply Hsq, square_zeros.
  - destruct (forallb _ labels); [discriminate|].
    intros H. injection H as <-. apply Hsq, square_fold_count, square_zeros.
Qed.

(** The whole run of the main script when nothing raises. *)
Lemma main_quiet_run (rt : runtime) (data : recarray)
  (features : list (list float)) (targets predicted : list str)
  (accuracy : scalar) (model_cm : list (list Z)) :
  quiet rt ->
  rt_file rt "galaxy_catalogue.npy" = Ok data ->
  generate_features_targets (rt_numpy rt) data = Ok (features, targets) ->
  rt_cross_val_predict rt {| n_estimators := 50 |} features targets 10
  = Ok predicted ->
  calculate_accuracy predicted targets = Ok accuracy ->
  confusion_matrix targets predicted (list_of_set (rt_hash rt) targets)
  = Ok model_cm ->
  main rt []
  = ([ np_load "galaxy_catalogue.npy";
       cross_val_predict {| n_estimators := 50 |} features targets 10;
       print [PStr "Accuracy score:"; PScalar accuracy];
       plt_figure ]
     ++ plot_head model_cm (list_of_set (rt_hash rt) targets) false
          "Confusion matrix" "Blues"
     ++ map (annotation (IntArr model_cm)) (cells (IntArr model_cm))
     ++ plot_tail
     ++ [plt_show],
     Ok tt).
Proof.
  intros Hq Hfile Hgft Hcvp Hacc Hcm.
  destruct (confusion_matrix_has_max Hcm) as [mx Hmx].
  unfold main, rf_predict_actual.
  rewrite Hfile, bind_ask_ok.
  rewrite bind_bind, Hgft, bind_lift_ok.
  rewrite bind_bind, Hcvp, bind_ask_ok, bind_ret.
  rewrite Hacc, bind_lift_ok, (bind_call_quiet Hq), Hcm, bind_lift_ok.
  rewrite (bind_call_quiet Hq).
  unfold Run.bind at 1. rewrite (plot_confusion_matrix_quiet Hq).
  cbn [normalized_or_raw]. rewrite Hmx.
  rewrite (call_quiet Hq).
  cbn [app]. repeat rewrite <- app_assoc. reflexivity.
Qed.


(** C4: the main script runs these steps, in this order: it loads the
    array from the local file; builds the features and targets from it;
    instantiates the random forest (50 trees) and has the library
    cross-validator predict every sample, 10-fold, from those features
    and targets; computes and prints the accuracy of the predictions
    against the targets; computes the confusion matrix of targets and
    predictions with the library function; and plots it.  In a run where
    no step raises, its calls are exactly these; and the two
    computations between the calls sit where the list puts them: when
    the accuracy cannot be computed the run ends after the
    cross-validation and before anything is printed, when the confusion
    matrix cannot be computed it ends after the accuracy is printed and
    before anything is drawn. *)
Theorem main_runs_its_steps_in_order (rt : runtime) (data : recarray)
  (features : list (list float)) (targets predicted : list str) :
  quiet rt ->
  rt_file rt "galaxy_catalogue.npy" = Ok data ->
  generate_features_targets (rt_numpy rt) data = Ok (features, targets) ->
  rt_cross_val_predict rt {| n_estimators := 50 |} features targets 10
  = Ok predicted ->
  (forall accuracy model_cm,
      calculate_accuracy predicted targets = Ok accuracy ->
      confusion_matrix targets predicted (list_of_set (rt_hash rt) targets)
      = Ok model_cm ->
      main rt []
      = ([ np_load "galaxy_catalogue.npy";
           cross_val_predict {| n_estimators := 50 |} features targets 10;
           print [PStr "Accuracy score:"; PScalar accuracy];
           plt_figure ]
         ++ plot_head model_cm (list_of_set (rt_hash rt) targets) false
              "Confusion matrix" "Blues"
         ++ map (annotation (IntArr model_cm)) (cells (IntArr model_cm))
         ++ plot_tail
         ++ [plt_show],
         Ok tt))
  /\ (forall e,
         calculate_accuracy predicted targets = Err e ->
         main rt []
         = ([ np_load "galaxy_catalogue.npy";
              cross_val_predict {| n_estimators := 50 |} features targets 10 ],
            Err e))
  /\ (forall accuracy e,
         calculate_accuracy predicted targets = Ok accuracy ->
         confusion_matrix targets predicted (list_of_set (rt_hash rt) targets)
         = Err e ->
         main rt []
         = ([ np_load "galaxy_catalogue.npy";
              cross_val_predict {| n_estimators := 50 |} features targets 10;
              print [PStr "Accuracy score:"; PScalar accuracy] ],
            Err e)).
Proof.
  intros Hq Hfile Hgft Hcvp.
  assert (Hstart :
    forall (k : list str * list str -> M unit),
      Run.bind (Run.ask (np_load "galaxy_catalogue.npy")
                  (rt_file rt "galaxy_catalogue.npy"))
        (fun data => Run.bind (rf_predict_actual rt data 50) k) []
      = k (predicted, targets)
          [ np_load "galaxy_catalogue.npy";
            cross_val_predict {| n_estimators := 50 |} features targets 10 ]).
  { intros k. unfold rf_predict_actual.
    rewrite Hfile, bind_ask_ok.
    rewrite bind_bind, Hgft, bind_lift_ok.
    rewrite bind_bind, Hcvp, bind_ask_ok, bind_ret. reflexivity. }
  split; [|split].
  - intros accuracy model_cm Hacc Hcm.
    apply (main_quiet_run Hq Hfile Hgft Hcvp Hacc Hcm).
  - intros e Hacc. unfold main. rewrite Hstart.
    unfold Run.bind, Run.lift. rewrite Hacc. reflexivity.
  - intros accuracy e Hacc Hcm. unfold main. rewrite Hstart.
    rewrite Hacc, bind_lift_ok, (bind_call_quiet Hq).
    unfold Run.bind, Run.lift. rewrite Hcm. reflexivity.
Qed.

Lemma main_runs_its_steps_in_order_witness :
  exists trace,
    main example_runtime [] = (trace, Ok tt)
    /\ firstn 4 trace
       = [ np_load "galaxy_catalogue.npy";
           cross_val_predict {| n_estimators := 50 |}
             (map (feature_row example_columns) [0; 1; 2]%nat)
             [chars_of "spiral"; chars_of "elliptical"; chars_of "merger"] 10;
           print [PStr "Accuracy score:";
                  PScalar (NpFloat64 (float_of_Z 2 / float_of_Z 3))];
           plt_figure ]
    /\ last trace plt_figure = plt_show.
Proof.
  destruct (@main_runs_its_steps_in_order example_runtime example_catalogue
              (map (feature_row example_columns) [0; 1; 2]%nat)
              [chars_of "spiral"; chars_of "elliptical"; chars_of "merger"]
              [chars_of "spiral"; chars_of "elliptical"; chars_of "elliptical"])
    as [Hrun _].
  - intros h e. reflexivity.
  - reflexivity.
  - vm_compute. reflexivity.
  - reflexivity.
  - eexists. split.
    + apply Hrun; vm_compute; reflexivity.
    + split; vm_compute; reflexivity.
Defined.

(** C3: the confusion matrix of the main script, computed with
    [labels = list(set(actual))] in whatever order the set yields them
    (for a non-empty catalogue and one prediction per sample), is the
    matrix the script plots and is square: it has [n] rows of [n]
    columns, [n] being the number of distinct actual class labels, and
    its entry [(i, j)] is the number of samples whose true class is
    [labels[i]] and whose predicted class is [labels[j]]. *)
Theorem confusion_matrix_square_counts (rt : runtime) (data : recarray)
  (features : list (list float)) (actual predicted : list str) :
  quiet rt ->
  rt_file rt "galaxy_catalogue.npy" = Ok data ->
  generate_features_targets (rt_numpy rt) data = Ok (features, actual) ->
  rt_cross_val_predict rt {| n_estimators := 50 |} features actual 10
  = Ok predicted ->
  length predicted = length actual ->
  actual <> [] ->
  array_size_ok actual ->
  exists model_cm,
    confusion_matrix actual predicted (list_of_set (rt_hash rt) actual)
    = Ok model_cm
    /\ In (plt_imshow (IntArr model_cm) "nearest" "Blues") (fst (main rt []))
    /\ length (list_of_set (rt_hash rt) actual) = n_distinct actual
    /\ length model_cm = n_distinct actual
    /\ (forall row, In row model_cm -> length row = n_distinct actual)
    /\ (forall i j,
          (i < n_distinct actual)%nat -> (j < n_distinct actual)%nat ->
          nth j (nth i model_cm []) 0
          = Z.of_nat (samples_with actual predicted
                        (nth i (list_of_set (rt_hash rt) actual) [])
                        (nth j (list_of_set (rt_hash rt) actual) []))).
Proof.
  intros Hq Hfile Hgft Hcvp Hlen Hne Hsz.
  destruct (list_of_set_spec (rt_hash rt) actual) as (Hnd & Hin & Hn).
  pose proof (confusion_matrix_runs (rt_hash rt) Hlen Hne) as Hcm.
  destruct (calculate_accuracy_returns Hne Hlen) as [acc Hacc].
  eexists. split; [exact Hcm|].
  pose proof (square_fold_count (list_of_set (rt_hash rt) actual)
                (combine actual predicted) (square_zeros (n_distinct actual)))
    as [Hrows Hcols].
  split; [|split; [exact Hn|split; [exact Hrows|split]]].
  - rewrite (main_quiet_run Hq Hfile Hgft Hcvp Hacc Hcm). cbn [fst].
    apply in_or_app. right. apply in_or_app. left. left. reflexivity.
  - intros row Hrow. rewrite Forall_forall in Hcols. apply Hcols. exact Hrow.
  - intros i j Hi Hj.
    change (nth j (nth i ?m []) 0) with (mcell m i j).
    rewrite (mcell_fold_count Hnd Hn) by
      (try assumption; try apply square_zeros;
       intros i' j' _ _; rewrite mcell_zeros;
       unfold array_size_ok in Hsz;
       rewrite length_combine, Hlen, Nat.min_id; lia).
    rewrite mcell_zeros, samples_with_count_pairs by assumption.
    reflexivity.
Qed.

Lemma confusion_matrix_square_counts_witness :
  exists model_cm,
    confusion_matrix
      [chars_of "spiral"; chars_of "elliptical"; chars_of "merger"]
      [chars_of "spiral"; chars_of "elliptical"; chars_of "elliptical"]
      (list_of_set (rt_hash example_runtime)
         [chars_of "spiral"; chars_of "elliptical"; chars_of "merger"])
    = Ok model_cm
    /\ In (plt_imshow (IntArr model_cm) "nearest" "Blues")
          (fst (main example_runtime []))
    /\ length (list_of_set (rt_hash example_runtime)
                 [chars_of "spiral"; chars_of "elliptical"; chars_of "merger"])
       = 3%nat
    /\ length model_cm = 3%nat
    /\ (forall row, In row model_cm -> length row = 3%nat)
    /\ (forall i j,
          (i < 3)%nat -> (j < 3)%nat ->
          nth j (nth i model_cm []) 0
          = Z.of_nat
              (samples_with
                 [chars_of "spiral"; chars_of "elliptical"; chars_of "merger"]
                 [chars_of "spiral"; chars_of "elliptical"; chars_of "elliptical"]
                 (nth i (list_of_set (rt_hash example_runtime)
                           [chars_of "spiral"; chars_of "elliptical";
                            chars_of "merger"]) [])
                 (nth j (list_of_set (rt_hash example_runtime)
                           [chars_of "spiral"; chars_of "elliptical";
                            chars_of "merger"]) []))).
Proof.
  apply (@confusion_matrix_square_counts example_runtime example_catalogue
           (map (feature_row example_columns) [0; 1; 2]%nat)
           [chars_of "spiral"; chars_of "elliptical"; chars_of "merger"]
           [chars_of "spiral"; chars_of "elliptical"; chars_of "elliptical"]).
  - intros h e. reflexivity.
  - reflexivity.
  - vm_compute. reflexivity.
  - reflexivity.
  - reflexivity.
  - discriminate.
  - unfold array_size_ok. cbn [length]. lia.
Defined.

(* ===================================================================== *)
(** * Exceptions pass through the notebook unchanged                      *)
(* ===================================================================== *)

Lemma err_of_bind {A B} (r : result A) (k : A -> result B) :
  err_of (Res.bind r k)
  = match r with
    | Ok a => err_of (k a)
    | Err e => Some e
    end.
Proof. destruct r; reflexivity. Qed.

Lemma err_of_some {A} (r : result A) (e : exn) :
  err_of r = Some e <-> r = Err e.
Proof.
  destruct r as [a|e']; cbn [err_of]; split; intros H;
    try discriminate; congruence.
Qed.

Lemma first_exception_in (outcomes : list (option exn)) (e : exn) :
  In (Some e) outcomes -> exists e', first_exception outcomes = Some e'.
Proof.
  induction outcomes as [|[x|] rest IH]; cbn [In first_exception].
  - intros [].
  - intros _. exists x. reflexivity.
  - intros [H|H]; [discriminate|]. apply IH. exact H.
Qed.

(** A column assignment keeps the number of rows, and whether it raises
    depends on the array only through that number. *)
Lemma setitem_col_length (np : numpy_rt) (arr arr' : list (list float))
  (k : nat) (c : column) :
  setitem_col np arr k c = Ok arr' -> length arr' = length arr.
Proof.
  unfold setitem_col.
  destruct (astype_float np c) as [vs|e]; cbn [Res.bind]; [|discriminate].
  unfold broadcast_to.
  destruct (Nat.eqb_spec (length vs) (length arr)) as [E|_]; cbn [Res.bind].
  - intros H. injection H as <-. rewrite length_map, length_combine. lia.
  - destruct vs as [|v [|v' vs]]; cbn [Res.bind]; try discriminate.
    intros H. injection H as <-.
    rewrite length_map, length_combine, repeat_length. lia.
Qed.

Lemma setitem_col_err_of (np : numpy_rt) (arr1 arr2 : list (list float))
  (k : nat) (c : column) :
  length arr1 = length arr2 ->
  err_of (setitem_col np arr1 k c) = err_of (setitem_col np arr2 k c).
Proof.
  intros Hlen. unfold setitem_col. rewrite !err_of_bind.
  destruct (astype_float np c) as [vs|e]; [|reflexivity].
  rewrite !err_of_bind, Hlen.
  destruct (broadcast_to (length arr2) vs); reflexivity.
Qed.

(** One operation of [generate_features_targets]: an exception ends the
    function with it, a value is handed on. *)
Ltac gft_operation :=
  rewrite err_of_bind;
  lazymatch goal with
  | L : length ?arr = length ?fresh
    |- match setitem_col ?np ?arr ?k ?c with Ok _ => _ | Err _ => _ end = _ =>
      try rewrite <- (@setitem_col_err_of np arr fresh k c L);
      let E := fresh "E" in
      destruct (setitem_col np arr k c) as [?|?] eqn:E; cbn [err_of];
      [apply setitem_col_length in E; apply (fun H => eq_trans H L) in E; clear L
      |reflexivity]
  | |- match ?r with Ok _ => _ | Err _ => _ end = _ =>
      destruct r as [?|?]; cbn [err_of]; [|reflexivity]
  end.

(** [generate_features_targets] ends with the exception of the first of
    its operations that raises, and with none when none does. *)
Lemma generate_features_targets_first_exception (np : numpy_rt)
  (data : recarray) :
  err_of (generate_features_targets np data)
  = first_exception
      (map (raises np data) generate_features_targets_operations).
Proof.
  unfold generate_features_targets, generate_features_targets_operations.
  cbn [map raises first_exception]. cbv zeta.
  assert (L : length (np_empty2 np (nrows data) 13)
              = length (np_empty2 np (nrows data) 13)) by reflexivity.
  do 34 gft_operation.
  reflexivity.
Qed.

(** A field that [generate_features_targets] reads and the catalogue
    lacks ends the function with an exception. *)
Lemma generate_features_targets_needs_its_fields (np : numpy_rt)
  (data : recarray) (name : string) (e : exn) :
  In name read_fields ->
  getitem data name = Err e ->
  exists e', generate_features_targets np data = Err e'.
Proof.
  intros Hname Hget.
  assert (Hop : In (Lookup name) generate_features_targets_operations).
  { unfold read_fields in Hname. cbn [In] in Hname.
    unfold generate_features_targets_operations.
    repeat (destruct Hname as [<-|Hname]; [cbn [In]; tauto|]).
    destruct Hname. }
  destruct (@first_exception_in
              (map (raises np data) generate_features_targets_operations) e)
    as [e' He'].
  { apply in_map_iff. exists (Lookup name). split; [|exact Hop].
    cbn [raises]. rewrite Hget. reflexivity. }
  exists e'. apply err_of_some.
  rewrite generate_features_targets_first_exception. exact He'.
Qed.

Section Calls.
Variable rt : runtime.

Lemma bind_call_step {B} (ev : event) (k : unit -> M B) (h : list event) :
  Run.bind (Run.call rt ev) k h
  = match rt_raises rt h ev with
    | Some x => (h ++ [ev], Err x)
    | None => k tt (h ++ [ev])
    end.
Proof.
  unfold Run.bind, Run.call. destruct (rt_raises rt h ev); reflexivity.
Qed.

Lemma call_make_calls (ev : event) (h : list event) :
  Run.call rt ev h = make_calls rt [ev] h.
Proof.
  unfold Run.call. cbn [make_calls].
  destruct (rt_raises rt h ev); reflexivity.
Qed.

Lemma make_calls_app (evs1 evs2 : list event) :
  forall h,
    make_calls rt (evs1 ++ evs2) h
    = match make_calls rt evs1 h with
      | (h1, Ok _) => make_calls rt evs2 h1
      | (h1, Err x) => (h1, Err x)
      end.
Proof.
  induction evs1 as [|ev evs1 IH]; intros h; cbn [app make_calls].
  - reflexivity.
  - destruct (rt_raises rt h ev); [reflexivity|apply IH].
Qed.

Lemma bind_for_each_calls {A B} (ev : A -> event) (xs : list A)
  (k : unit -> M B) :
  forall h,
    Run.bind (Run.for_each xs (fun x => Run.call rt (ev x))) k h
    = match make_calls rt (map ev xs) h with
      | (h1, Ok _) => k tt h1
      | (h1, Err x) => (h1, Err x)
      end.
Proof.
  induction xs as [|x xs IH]; intros h; cbn [Run.for_each map make_calls].
  - reflexivity.
  - rewrite bind_bind, bind_call_step.
    destruct (rt_raises rt h (ev x)); [reflexivity|apply IH].
Qed.

(** The part of [plot_confusion_matrix] that follows the prints. *)
Lemma plot_confusion_matrix_rest (cm' : ndarray2) (h1 : list event) :
  Run.bind (Run.lift (np_max cm'))
    (fun mx =>
       Run.bind (Run.lift (truediv mx (NpFloat64 2)))
         (fun thresh =>
            Run.bind
              (Run.for_each (product (range (shape0 cm')) (range (shape1 cm')))
                 (fun ij =>
                    Run.call rt
                      (plt_text (Z.of_nat (snd ij)) (Z.of_nat (fst ij))
                         (item cm' (fst ij) (snd ij)) "center"
                         (text_color (item cm' (fst ij) (snd ij)) thresh))))
              (fun _ =>
                 Run.bind (Run.call rt plt_tight_layout)
                   (fun _ =>
                      Run.bind (Run.call rt (plt_ylabel "True Class"))
                        (fun _ => Run.call rt (plt_xlabel "Predicted Class"))))))
    h1
  = match np_max cm' with
    | Err e => (h1, Err e)
    | Ok _ => make_calls rt (map (annotation cm') (cells cm') ++ plot_tail) h1
    end.
Proof.
  unfold Run.bind at 1, Run.lift at 1.
  destruct (np_max cm') as [mx|e] eqn:Emx; [|reflexivity].
  assert (Hdiv : truediv mx (NpFloat64 2) = Ok (NpFloat64 (to_float mx / 2)))
    by (destruct mx; reflexivity).
  unfold Run.bind at 1, Run.lift at 1. rewrite Hdiv.
  rewrite (bind_for_each_calls
             (fun ij =>
                plt_text (Z.of_nat (snd ij)) (Z.of_nat (fst ij))
                  (item cm' (fst ij) (snd ij)) "center"
                  (text_color (item cm' (fst ij) (snd ij))
                     (NpFloat64 (to_float mx / 2))))).
  rewrite make_calls_app.
  replace (map (annotation cm') (cells cm'))
    with (map (fun ij =>
                 plt_text (Z.of_nat (snd ij)) (Z.of_nat (fst ij))
                   (item cm' (fst ij) (snd ij)) "center"
                   (text_color (item cm' (fst ij) (snd ij))
                      (NpFloat64 (to_float mx / 2))))
              (product (range (shape0 cm')) (range (shape1 cm'))))
    by (apply map_ext; intros ij;
        unfold annotation, thresh_of, text_color; rewrite Emx; reflexivity).
  match goal with
  | |- context [make_calls rt ?evs h1] =>
      destruct (make_calls rt evs h1) as [h2 [[]|x]]; [|reflexivity]
  end.
  unfold plot_tail. cbn [make_calls].
  do 2 (rewrite bind_call_step;
        match goal with
        | |- context [rt_raises rt ?h' ?ev] =>
            destruct (rt_raises rt h' ev); [reflexivity|]
        end).
  unfold Run.call.
  match goal with
  | |- context [rt_raises rt ?h' ?ev] =>
      destruct (rt_raises rt h' ev); reflexivity
  end.
Qed.

(** [plot_confusion_matrix] in any runtime: the calls before the
    maximum, the maximum, the calls after it. *)
Lemma plot_confusion_matrix_run (cm : list (list Z)) (classes : list str)
  (normalize : bool) (title cmap : string) (h : list event) :
  plot_confusion_matrix rt cm classes normalize title cmap h
  = match make_calls rt (plot_head cm classes normalize title cmap) h with
    | (h1, Err x) => (h1, Err x)
    | (h1, Ok _) =>
        match np_max (normalized_or_raw cm normalize) with
        | Err e => (h1, Err e)
        | Ok _ =>
            make_calls rt
              (map (annotation (normalized_or_raw cm normalize))
                   (cells (normalized_or_raw cm normalize))
               ++ plot_tail)
              h1
        end
    end.
Proof.
  unfold plot_confusion_matrix, plot_head. cbn [make_calls].
  do 5 (rewrite bind_call_step;
        match goal with
        | |- context [rt_raises rt ?h' ?ev] =>
            destruct (rt_raises rt h' ev); [reflexivity|]
        end).
  destruct normalize; cbn [normalized_or_raw];
    rewrite bind_bind, bind_call_step;
    (match goal with
     | |- context [rt_raises rt ?h' ?ev] =>
         destruct (rt_raises rt h' ev); [reflexivity|]
     end);
    rewrite bind_ret, bind_call_step;
    (match goal with
     | |- context [rt_raises rt ?h' ?ev] =>
         destruct (rt_raises rt h' ev); [reflexivity|]
     end);
    apply plot_confusion_matrix_rest.
Qed.

(** [rf_predict_actual] in any runtime. *)
Lemma rf_predict_actual_run (data : recarray) (n : Z) (h : list event) :
  rf_predict_actual rt data n h
  = match generate_features_targets (rt_numpy rt) data with
    | Err e => (h, Err e)
    | Ok (features, targets) =>
        (h ++ [cross_val_predict {| n_estimators := n |} features targets 10],
         match rt_cross_val_predict rt {| n_estimators := n |}
                 features targets 10 with
         | Ok predicted => Ok (predicted, targets)
         | Err e => Err e
         end)
    end.
Proof.
  unfold rf_predict_actual, Run.bind, Run.lift, Run.ask, Run.ret.
  destruct (generate_features_targets (rt_numpy rt) data)
    as [[features targets]|e]; [|reflexivity].
  destruct (rt_cross_val_predict rt {| n_estimators := n |}
              features targets 10); reflexivity.
Qed.
End Calls.

(** The main script in any runtime, step by step. *)
Lemma main_run (rt : runtime) (h : list event) :
  main rt h
  = match rt_file rt "galaxy_catalogue.npy" with
    | Err e => (h ++ [np_load "galaxy_catalogue.npy"], Err e)
    | Ok data =>
        match generate_features_targets (rt_numpy rt) data with
        | Err e => (h ++ [np_load "galaxy_catalogue.npy"], Err e)
        | Ok (features, targets) =>
            let h1 :=
              (h ++ [np_load "galaxy_catalogue.npy"])
              ++ [cross_val_predict {| n_estimators := 50 |}
                    features targets 10] in
            match rt_cross_val_predict rt {| n_estimators := 50 |}
                    features targets 10 with
            | Err e => (h1, Err e)
            | Ok predicted =>
                match calculate_accuracy predicted targets with
                | Err e => (h1, Err e)
                | Ok accuracy =>
                    let shown :=
                      print [PStr "Accuracy score:"; PScalar accuracy] in
                    let class_labels := list_of_set (rt_hash rt) targets in
                    match rt_raises rt h1 shown with
                    | Some x => (h1 ++ [shown], Err x)
                    | None =>
                        match confusion_matrix targets predicted class_labels
                        with
                        | Err e => (h1 ++ [shown], Err e)
                        | Ok model_cm =>
                            make_calls rt
                              (plt_figure
                               :: plot_head model_cm class_labels false
                                    "Confusion matrix" "Blues"
                               ++ map (annotation (IntArr model_cm))
                                    (cells (IntArr model_cm))
                               ++ plot_tail ++ [plt_show])
                              (h1 ++ [shown])
                        end
                    end
                end
            end
        end
    end.
Proof.
  unfold main.
  destruct (rt_file rt "galaxy_catalogue.npy") as [data|e]; [|reflexivity].
  rewrite bind_ask_ok.
  unfold Run.bind at 1. rewrite rf_predict_actual_run.
  destruct (generate_features_targets (rt_numpy rt) data)
    as [[features targets]|e]; [|reflexivity].
  destruct (rt_cross_val_predict rt {| n_estimators := 50 |}
              features targets 10) as [predicted|e]; [|reflexivity].
  unfold Run.bind at 1, Run.lift at 1.
  destruct (calculate_accuracy predicted targets) as [accuracy|e];
    [|reflexivity].
  rewrite bind_call_step. cbv zeta.
  match goal with
  | |- context [rt_raises rt ?h1 ?ev] =>
      destruct (rt_raises rt h1 ev); [reflexivity|]
  end.
  unfold Run.bind at 1, Run.lift at 1.
  destruct (confusion_matrix targets predicted
              (list_of_set (rt_hash rt) targets)) as [model_cm|e] eqn:Hcm;
    [|reflexivity].
  destruct (confusion_matrix_has_max Hcm) as [mx Hmx].
  rewrite bind_call_step. cbn [make_calls].
  match goal with
  | |- context [rt_raises rt ?h1 plt_figure] =>
      destruct (rt_raises rt h1 plt_figure); [reflexivity|]
  end.
  unfold Run.bind at 1. rewrite plot_confusion_matrix_run.
  cbn [normalized_or_raw]. rewrite Hmx.
  rewrite make_calls_app.
  match goal with
  | |- context [make_calls rt (plot_head ?a ?b ?c ?d ?e) ?h1] =>
      destruct (make_calls rt (plot_head a b c d e) h1) as [h2 [[]|x]];
        [|reflexivity]
  end.
  rewrite (app_assoc _ plot_tail), (make_calls_app rt _ [plt_show]).
  match goal with
  | |- context [make_calls rt (?a ++ plot_tail) h2] =>
      destruct (make_calls rt (a ++ plot_tail) h2) as [h3 [[]|x]];
        [|reflexivity]
  end.
  apply call_make_calls.
Qed.

(** C6: no function of the notebook catches or alters an exception:
    each ends with the exception of the first of its operations that
    raises, at the place where it raises, and returns a value only when
    none does.
    - [calculate_accuracy] raises exactly when its comparison or its
      division does, and what that one raises.
    - [generate_features_targets] ends with the exception of the first
      of its field lookups, divisions and assignments that raises; so a
      catalogue that lacks any of the fields it reads makes it raise.
    - [plot_confusion_matrix], after any history: a drawing or printing
      call that raises ends it with that exception and no further call;
      so does [cm.max()], after the two prints.
    - [rf_predict_actual] ends with the exception of
      [generate_features_targets] before the estimator is called, or with
      the exception of the estimator.
    - The main script ends with the exception of reading the file (a
      missing file, a malformed array), of [generate_features_targets] (a
      missing column), of the estimator, of [calculate_accuracy], of
      [print], of [confusion_matrix], or of the first plotting call that
      raises, each time with the trace cut at that point. *)
Theorem exceptions_propagate_unchanged (rt : runtime) (h : list event) :
  (forall predicted actual e,
      calculate_accuracy predicted actual = Err e
      <-> (np_equal actual predicted = Err e
           \/ exists eq, np_equal actual predicted = Ok eq
                         /\ truediv (py_sum eq) (py_len actual) = Err e))
  /\ (forall np data,
         err_of (generate_features_targets np data)
         = first_exception
             (map (raises np data) generate_features_targets_operations))
  /\ (forall np data name e,
         In name read_fields ->
         getitem data name = Err e ->
         exists e', generate_features_targets np data = Err e')
  /\ (forall cm classes normalize title cmap,
         plot_confusion_matrix rt cm classes normalize title cmap h
         = match make_calls rt (plot_head cm classes normalize title cmap) h
           with
           | (h1, Err x) => (h1, Err x)
           | (h1, Ok _) =>
               match np_max (normalized_or_raw cm normalize) with
               | Err e => (h1, Err e)
               | Ok _ =>
                   make_calls rt
                     (map (annotation (normalized_or_raw cm normalize))
                          (cells (normalized_or_raw cm normalize))
                      ++ plot_tail)
                     h1
               end
           end)
  /\ (forall data n,
         rf_predict_actual rt data n h
         = match generate_features_targets (rt_numpy rt) data with
           | Err e => (h, Err e)
           | Ok (features, targets) =>
               (h ++ [cross_val_predict {| n_estimators := n |}
                        features targets 10],
                match rt_cross_val_predict rt {| n_estimators := n |}
                        features targets 10 with
                | Ok predicted => Ok (predicted, targets)
                | Err e => Err e
                end)
           end)
  /\ (let h0 := h ++ [np_load "galaxy_catalogue.npy"] in
      (forall e,
          rt_file rt "galaxy_catalogue.npy" = Err e ->
          main rt h = (h0, Err e))
      /\ (forall data,
             rt_file rt "galaxy_catalogue.npy" = Ok data ->
             (forall e,
                 generate_features_targets (rt_numpy rt) data = Err e ->
                 main rt h = (h0, Err e))
             /\ (forall features targets,
                    generate_features_targets (rt_numpy rt) data
                    = Ok (features, targets) ->
                    let rfc := {| n_estimators := 50 |} in
                    let h1 := h0 ++ [cross_val_predict rfc features targets 10] in
                    (forall e,
                        rt_cross_val_predict rt rfc features targets 10 = Err e ->
                        main rt h = (h1, Err e))
                    /\ (forall predicted,
                           rt_cross_val_predict rt rfc features targets 10
                           = Ok predicted ->
                           (forall e,
                               calculate_accuracy predicted targets = Err e ->
                               main rt h = (h1, Err e))
                           /\ (forall accuracy,
                                  calculate_accuracy predicted targets
                                  = Ok accuracy ->
                                  let shown :=
                                    print [PStr "Accuracy score:";
                                           PScalar accuracy] in
                                  let class_labels :=
                                    list_of_set (rt_hash rt) targets in
                                  (forall x,
                                      rt_raises rt h1 shown = Some x ->
                                      main rt h = (h1 ++ [shown], Err x))
                                  /\ (rt_raises rt h1 shown = None ->
                                      (forall e,
                                          confusion_matrix targets predicted
                                            class_labels = Err e ->
                                          main rt h = (h1 ++ [shown], Err e))
                                      /\ (forall model_cm,
                                             confusion_matrix targets predicted
                                               class_labels = Ok model_cm ->
                                             main rt h
                                             = make_calls rt
                                                 (plt_figure
                                                  :: plot_head model_cm
                                                       class_labels false
                                                       "Confusion matrix" "Blues"
                                                  ++ map (annotation (IntArr model_cm))
                                                       (cells (IntArr model_cm))
                                                  ++ plot_tail ++ [plt_show])
                                                 (h1 ++ [shown])))))))).
Proof.
  split; [|split; [|split; [|split; [|split]]]].
  - intros p a e. unfold calculate_accuracy.
    destruct (np_equal a p) as [eq|e'] eqn:E; cbn [Res.bind]; split.
    + intros H. right. exists eq. split; [reflexivity|exact H].
    + intros [H|(eq' & H & Hd)]; [discriminate|].
      injection H as <-. exact Hd.
    + intros H. left. congruence.
    + intros [H|(eq' & H & _)]; [congruence|discriminate].
  - apply generate_features_targets_first_exception.
  - apply generate_features_targets_needs_its_fields.
  - intros. apply plot_confusion_matrix_run.
  - intros. apply rf_predict_actual_run.
  - intros h0. subst h0. rewrite main_run. split.
    { intros e Hfile. rewrite Hfile. reflexivity. }
    intros data Hfile. rewrite Hfile. split.
    { intros e Hgft. rewrite Hgft. reflexivity. }
    intros features targets Hgft rfc h1. rewrite Hgft. cbv beta iota.
    subst rfc h1. split.
    { intros e Hcvp. rewrite Hcvp. reflexivity. }
    intros predicted Hcvp. rewrite Hcvp. cbv beta iota. split.
    { intros e Hacc. rewrite Hacc. reflexivity. }
    intros accuracy Hacc shown class_labels. rewrite Hacc.
    subst shown class_labels. cbv beta iota zeta. split.
    { intros x Hshown. rewrite Hshown. reflexivity. }
    intros Hshown. rewrite Hshown. cbv beta iota. split.
    { intros e Hcm. rewrite Hcm. reflexivity. }
    intros model_cm Hcm. rewrite Hcm. reflexivity.
Qed.

Lemma exceptions_propagate_unchanged_witness :
  main missing_file_runtime []
  = ([] ++ [np_load "galaxy_catalogue.npy"],
     Err (PyExc "FileNotFoundError" "No such file or directory")).
Proof.
  destruct (exceptions_propagate_unchanged missing_file_runtime [])
    as (_ & _ & _ & _ & _ & Hfile & _).
  apply (Hfile (PyExc "FileNotFoundError" "No such file or directory")).
  reflexivity.
Defined.

(* ===================================================================== *)
(** * The calls a run makes                                               *)
(* ===================================================================== *)

Section Emits.
Variable P : event -> Prop.

Lemma emits_ret {A} (a : A) : emits P (Run.ret a).
Proof. intros h. exists []. rewrite app_nil_r. split; [reflexivity|constructor]. Qed.

Lemma emits_lift {A} (r : result A) : emits P (Run.lift r).
Proof. intros h. exists []. rewrite app_nil_r. split; [reflexivity|constructor]. Qed.

Lemma emits_call (rt : runtime) (ev : event) : P ev -> emits P (Run.call rt ev).
Proof.
  intros Hev h. exists [ev]. split; [reflexivity|].
  constructor; [exact Hev|constructor].
Qed.

Lemma emits_ask {A} (ev : event) (answer : result A) :
  P ev -> emits P (Run.ask ev answer).
Proof.
  intros Hev h. exists [ev]. split; [reflexivity|].
  constructor; [exact Hev|constructor].
Qed.

Lemma emits_bind {A B} (m : M A) (k : A -> M B) :
  emits P m -> (forall a, emits P (k a)) -> emits P (Run.bind m k).
Proof.
  intros Hm Hk h. destruct (Hm h) as (a1 & Ht & Hall).
  unfold Run.bind. destruct (m h) as [t1 [a|e]]; cbn [fst] in *; subst t1.
  - destruct (Hk a (h ++ a1)) as (a2 & Ht2 & Hall2).
    exists (a1 ++ a2). split; [rewrite Ht2, app_assoc; reflexivity|].
    apply Forall_app. split; assumption.
  - exists a1. split; [reflexivity|exact Hall].
Qed.

Lemma emits_for_each {A} (xs : list A) (body : A -> M unit) :
  (forall x, emits P (body x)) -> emits P (Run.for_each xs body).
Proof.
  intros Hbody. induction xs as [|x xs IH]; cbn [Run.for_each].
  - apply emits_ret.
  - apply emits_bind; [apply Hbody|intros _; exact IH].
Qed.

(** A computation that starts with a call [ev]: the trace grows by [ev]
    and then by calls satisfying [P]. *)
Lemma bind_ask_emits {A B} (ev : event) (answer : result A) (k : A -> M B) :
  (forall a, emits P (k a)) ->
  forall h, exists rest,
    fst (Run.bind (Run.ask ev answer) k h) = h ++ ev :: rest
    /\ Forall P rest.
Proof.
  intros Hk h. unfold Run.bind, Run.ask. destruct answer as [a|e].
  - destruct (Hk a (h ++ [ev])) as (rest & Ht & Hall).
    exists rest. split; [rewrite Ht, <- app_assoc; reflexivity|exact Hall].
  - exists []. split; [reflexivity|constructor].
Qed.
End Emits.

Lemma plot_confusion_matrix_emits (rt : runtime) (cm : list (list Z))
  (classes : list str) (normalize : bool) (title cmap : string) :
  emits (fun ev => is_np_load ev = false)
    (plot_confusion_matrix rt cm classes normalize title cmap).
Proof.
  unfold plot_confusion_matrix.
  repeat first
    [ apply emits_bind; [|intros ?]
    | apply emits_call; reflexivity
    | apply emits_lift
    | apply emits_ret
    | apply emits_for_each; intros ?
    | destruct normalize ].
Qed.

(** X14: the main script loads one file, once.  Whatever the
    environment answers and whether the run fails or not, its first call
    is [np.load('galaxy_catalogue.npy')], and no later call of the run is
    an [np.load]. *)
Theorem main_loads_the_catalogue_first_and_once (rt : runtime)
  (h : list event) :
  exists rest,
    fst (main rt h) = h ++ np_load "galaxy_catalogue.npy" :: rest
    /\ Forall (fun ev => is_np_load ev = false) rest.
Proof.
  unfold main. apply bind_ask_emits.
  intros data. unfold rf_predict_actual.
  repeat first
    [ apply plot_confusion_matrix_emits
    | apply emits_bind; [|intros ?]
    | apply emits_call; reflexivity
    | apply emits_ask; reflexivity
    | apply emits_lift
    | apply emits_ret
    | match goal with
      | |- emits _ (match ?p with pair _ _ => _ end) => destruct p
      end ].
Qed.

(* ===================================================================== *)
(** * Further properties of [calculate_accuracy]                          *)
(* ===================================================================== *)

Lemma str_eqb_sym (a b : str) : str_eqb a b = str_eqb b a.
Proof.
  destruct (str_eqb b a) eqn:E.
  - apply str_eqb_eq. symmetry. apply str_eqb_eq. exact E.
  - apply str_eqb_neq. intros H. apply str_eqb_neq in E. congruence.
Qed.

Lemma np_equal_sym (a b : list str) :
  length a = length b -> np_equal a b = np_equal b a.
Proof.
  intros Hlen. unfold np_equal.
  rewrite !broadcast2_same_length by congruence. f_equal.
  revert b Hlen. induction a as [|x a IH]; intros [|y b] Hlen;
    cbn [length] in Hlen; try discriminate; [reflexivity|].
  cbn [combine map fst snd]. rewrite str_eqb_sym, IH by congruence.
  reflexivity.
Qed.

(** X1: on two arrays of the same length [calculate_accuracy] does not
    tell the predictions from the truth: swapping its arguments gives
    the same result (the same score, or the same exception). *)
Theorem calculate_accuracy_symmetric (predicted_classes actual_classes : list str) :
  length predicted_classes = length actual_classes ->
  calculate_accuracy predicted_classes actual_classes
  = calculate_accuracy actual_classes predicted_classes.
Proof.
  intros Hlen. unfold calculate_accuracy.
  rewrite (np_equal_sym (a := actual_classes)) by congruence.
  unfold py_len. rewrite Hlen. reflexivity.
Qed.

Lemma calculate_accuracy_symmetric_witness :
  calculate_accuracy [chars_of "spiral"; chars_of "merger"]
                     [chars_of "spiral"; chars_of "spiral"]
  = calculate_accuracy [chars_of "spiral"; chars_of "spiral"]
                       [chars_of "spiral"; chars_of "merger"].
Proof.
  apply (@calculate_accuracy_symmetric
           [chars_of "spiral"; chars_of "merger"]
           [chars_of "spiral"; chars_of "spiral"]).
  reflexivity.
Defined.

(** X2: [calculate_accuracy] has no length check of its own.  When the
    two arrays differ in length and neither has exactly one element, the
    comparison cannot pair them up and the function raises numpy's
    broadcasting error; it returns no score. *)
Theorem calculate_accuracy_length_mismatch (predicted_classes actual_classes : list str) :
  length predicted_classes <> length actual_classes ->
  length predicted_classes <> 1%nat ->
  length actual_classes <> 1%nat ->
  calculate_accuracy predicted_classes actual_classes = Err broadcast_error.
Proof.
  intros Hne Hp Ha. unfold calculate_accuracy, np_equal, broadcast2.
  destruct (Nat.eqb_spec (length actual_classes) (length predicted_classes))
    as [Heq|_]; [congruence|].
  destruct actual_classes as [|a [|a' la]];
    destruct predicted_classes as [|p [|p' lp]];
    cbn [length] in *; try congruence; reflexivity.
Qed.

Lemma calculate_accuracy_length_mismatch_witness :
  calculate_accuracy [chars_of "spiral"; chars_of "merger"]
                     [chars_of "spiral"; chars_of "merger"; chars_of "spiral"]
  = Err broadcast_error.
Proof.
  apply (@calculate_accuracy_length_mismatch
           [chars_of "spiral"; chars_of "merger"]
           [chars_of "spiral"; chars_of "merger"; chars_of "spiral"]);
    cbn [length]; lia.
Defined.

(** X3: an array of one element is stretched instead of rejected.  A
    single predicted label against two or more actual labels scores the
    share of the actual labels equal to it; a single actual label against
    two or more predictions divides the number of predictions equal to it
    by one, so the "accuracy" is that number itself and may exceed 1. *)
Theorem calculate_accuracy_broadcasts_one_label (label : str) (others : list str) :
  (2 <= length others)%nat ->
  array_size_ok others ->
  calculate_accuracy [label] others
  = Ok (NpFloat64
          (float_of_Z (Z.of_nat (length (filter (fun s => str_eqb s label) others)))
           / float_of_Z (Z.of_nat (length others))))
  /\ calculate_accuracy others [label]
     = Ok (NpFloat64
             (float_of_Z (Z.of_nat (length (filter (str_eqb label) others)))
              / float_of_Z 1)).
Proof.
  intros Hlen Hsz.
  assert (Hne : others <> []) by (destruct others; cbn [length] in Hlen; [lia|discriminate]).
  assert (Hb1 : np_equal others [label] = Ok (map (fun s => str_eqb s label) others)).
  { unfold np_equal, broadcast2.
    destruct others as [|a [|b l]]; cbn [length] in Hlen; try lia. reflexivity. }
  assert (Hb2 : np_equal [label] others = Ok (map (str_eqb label) others)).
  { unfold np_equal, broadcast2.
    destruct others as [|a [|b l]]; cbn [length] in Hlen; try lia. reflexivity. }
  unfold calculate_accuracy. rewrite Hb1, Hb2. cbn [Res.bind].
  rewrite !py_sum_count;
    try (unfold array_size_ok in *; rewrite length_map; exact Hsz);
    try (destruct others; [congruence|discriminate]).
  rewrite !length_filter_map. split; reflexivity.
Qed.

Lemma calculate_accuracy_broadcasts_one_label_witness :
  calculate_accuracy [chars_of "spiral"]
    [chars_of "spiral"; chars_of "merger"; chars_of "spiral"]
  = Ok (NpFloat64 (float_of_Z 2 / float_of_Z 3))
  /\ calculate_accuracy
       [chars_of "spiral"; chars_of "merger"; chars_of "spiral"]
       [chars_of "spiral"]
     = Ok (NpFloat64 (float_of_Z 2 / float_of_Z 1)).
Proof.
  apply (@calculate_accuracy_broadcasts_one_label (chars_of "spiral")
           [chars_of "spiral"; chars_of "merger"; chars_of "spiral"]).
  - cbn [length]. lia.
  - unfold array_size_ok. cbn [length]. lia.
Defined.

(* ===================================================================== *)
(** * Further properties of [generate_features_targets]                   *)
(* ===================================================================== *)

Lemma find_drop_same (name : string) (l : list (string * column)) :
  find (fun p => String.eqb (fst p) name)
       (filter (fun p => negb (String.eqb (fst p) name)) l) = None.
Proof.
  induction l as [|p l IH]; cbn [filter find]; [reflexivity|].
  destruct (String.eqb (fst p) name) eqn:E; cbn [negb]; [exact IH|].
  cbn [find]. rewrite E. exact IH.
Qed.

Lemma find_drop_other (name x : string) (l : list (string * column)) :
  x <> name ->
  find (fun p => String.eqb (fst p) x)
       (filter (fun p => negb (String.eqb (fst p) name)) l)
  = find (fun p => String.eqb (fst p) x) l.
Proof.
  intros Hne. induction l as [|p l IH]; cbn [filter find]; [reflexivity|].
  destruct (String.eqb_spec (fst p) name) as [Hn|Hn]; cbn [negb].
  - destruct (String.eqb_spec (fst p) x) as [Hx|_]; [congruence|exact IH].
  - cbn [find]. rewrite IH. reflexivity.
Qed.

(** Looking up a field after one was dropped. *)
Lemma getitem_drop_field (data : recarray) (name x : string) :
  getitem (drop_field name data) x
  = if String.eqb x name then Err (ValueError ("no field of name " ++ x))
    else getitem data x.
Proof.
  unfold getitem, drop_field. cbn [fields].
  destruct (String.eqb_spec x name) as [->|Hne].
  - rewrite find_drop_same. reflexivity.
  - rewrite find_drop_other by exact Hne. reflexivity.
Qed.

Lemma setitem_all_U_class (np : numpy_rt) (n : nat) (cls : list str) :
  length cls = n ->
  setitem_all_U np 20 (np_empty_U np n) (StrCol cls)
  = Ok (map (U_cast 20) cls).
Proof.
  intros <-. unfold setitem_all_U, np_empty_U. cbn [astype_U].
  rewrite length_map, length_seq.
  replace (length cls) with (length (map (U_cast 20) cls))
    by apply length_map.
  apply broadcast_to_same_length.
Qed.

(** X4: a catalogue that lacks one of the seventeen fields the function
    reads (and has the others) makes [generate_features_targets] raise
    numpy's ValueError naming that field; no features or targets are
    returned. *)
Theorem generate_features_targets_missing_field (np : numpy_rt)
  (data : recarray) (g : galaxy_columns) (name : string) :
  has_schema data g ->
  In name read_fields ->
  generate_features_targets np (drop_field name data)
  = Err (ValueError ("no field of name " ++ name)).
Proof.
  unfold has_schema, has_str_field, has_float_field.
  intros (Hclass & Hug & Hgr & Hri & Hiz & Hecc & Hu & Hg & Hr & Hi & Hz
          & H5u & H9u & H5r & H9r & H5z & H9z) Hin.
  destruct Hclass as [Ec Lc]. destruct Hug as [E0 L0].
  destruct Hgr as [E1 L1]. destruct Hri as [E2 L2]. destruct Hiz as [E3 L3].
  destruct Hecc as [E4 L4]. destruct Hu as [E5 L5]. destruct Hg as [E6 L6].
  destruct Hr as [E7 L7]. destruct Hi as [E8 L8]. destruct Hz as [E9 L9].
  destruct H5u as [Ea La]. destruct H9u as [Eb Lb]. destruct H5r as [Ec' Lc'].
  destruct H9r as [Ed Ld]. destruct H5z as [Ee Le]. destruct H9z as [Ef Lf].
  unfold read_fields in Hin. cbn [In] in Hin.
  repeat (destruct Hin as [<-|Hin]);
    try (destruct Hin);
    unfold generate_features_targets;
    rewrite !getitem_drop_field;
    cbv [String.eqb Ascii.eqb Bool.eqb];
    cbn [nrows drop_field];
    rewrite ?Ec, ?E0, ?E1, ?E2, ?E3, ?E4, ?E5, ?E6, ?E7, ?E8, ?E9,
      ?Ea, ?Eb, ?Ec', ?Ed, ?Ee, ?Ef;
    cbn [Res.bind];
    rewrite ?setitem_all_U_class by assumption;
    cbn [Res.bind]; unfold np_empty2;
    repeat first
      [ progress cbn [Res.bind]
      | rewrite setitem_col_rows
          by (assumption || (rewrite length_map, length_combine; lia))
      | rewrite col_truediv_rows by congruence ];
    reflexivity.
Qed.

Lemma generate_features_targets_missing_field_witness :
  generate_features_targets example_numpy (drop_field "ecc" example_catalogue)
  = Err (ValueError "no field of name ecc").
Proof.
  apply (@generate_features_targets_missing_field example_numpy
           example_catalogue example_columns "ecc").
  - unfold has_schema, has_str_field, has_float_field.
    repeat split; reflexivity.
  - unfold read_fields. cbn [In]. tauto.
Defined.

(** X5: the result of [generate_features_targets] depends on the
    seventeen columns it reads and on nothing else: not on what
    [np.empty] found in memory (every cell it allocates is overwritten),
    not on the platform's conversions, and not on other fields of the
    catalogue or on the order of its fields. *)
Theorem generate_features_targets_reads_only_its_columns
  (np np' : numpy_rt) (data data' : recarray) (g : galaxy_columns) :
  has_schema data g ->
  has_schema data' g ->
  generate_features_targets np data = generate_features_targets np' data'.
Proof.
  intros Hs Hs'.
  rewrite (generate_features_targets_closed_form np Hs).
  rewrite (generate_features_targets_closed_form np' Hs').
  destruct Hs as [[_ L] _]. destruct Hs' as [[_ L'] _].
  rewrite <- L, <- L'. reflexivity.
Qed.

Lemma generate_features_targets_reads_only_its_columns_witness :
  generate_features_targets example_numpy example_catalogue
  = generate_features_targets
      {| garbage_float := fun i j => float_of_Z (Z.of_nat (i + j));
         garbage_str := fun _ => chars_of "junk";
         parse_float := fun _ => Ok 0%float;
         repr_float := fun _ => [] |}
      {| nrows := 3;
         fields := ("redshift"%string, FloatCol [0.5; 0.25; 0.125]%float)
                   :: rev (fields example_catalogue) |}.
Proof.
  apply (@generate_features_targets_reads_only_its_columns _ _ _ _
           example_columns);
    unfold has_schema, has_str_field, has_float_field;
    repeat split; reflexivity.
Defined.

Lemma broadcast_to_inv {A} (n : nat) (xs ys : list A) :
  broadcast_to n xs = Ok ys ->
  length ys = n /\ forall y, In y ys -> In y xs.
Proof.
  unfold broadcast_to.
  destruct (Nat.eqb_spec (length xs) n) as [Hn|_].
  - intros H. injection H as <-. split; [exact Hn|tauto].
  - destruct xs as [|x [|x' xs]]; try discriminate.
    intros H. injection H as <-. split; [apply repeat_length|].
    intros y Hy. apply repeat_spec in Hy. left. congruence.
Qed.

Lemma length_rstrip_nul (s : str) : (length (rstrip_nul s) <= length s)%nat.
Proof.
  induction s as [|c s IH]; cbn [rstrip_nul length]; [lia|].
  destruct (rstrip_nul s) as [|c' t].
  - destruct (N.eqb c NUL); cbn [length]; lia.
  - cbn [length] in *. lia.
Qed.

Lemma rstrip_nul_idempotent (s : str) : rstrip_nul (rstrip_nul s) = rstrip_nul s.
Proof.
  induction s as [|c s IH]; cbn [rstrip_nul]; [reflexivity|].
  destruct (rstrip_nul s) as [|c' t] eqn:E.
  - destruct (N.eqb c NUL) eqn:Ec; cbn [rstrip_nul]; [reflexivity|].
    rewrite Ec. reflexivity.
  - change (rstrip_nul (c :: c' :: t))
      with (match rstrip_nul (c' :: t) with
            | [] => if N.eqb c NUL then [] else [c]
            | t' => c :: t'
            end).
    rewrite IH. reflexivity.
Qed.

(** What comes out of a [<U20] cell fits a [<U20] cell. *)
Lemma U_cast_fits (s : str) : fits_U20 (U_cast 20 s).
Proof.
  unfold fits_U20. rewrite U_cast_firstn. unfold U_load. split.
  - etransitivity; [apply length_rstrip_nul|]. apply firstn_le_length.
  - apply rstrip_nul_idempotent.
Qed.

Lemma astype_U_fits (np : numpy_rt) (c : column) :
  forall s, In s (astype_U np 20 c) -> fits_U20 s.
Proof.
  intros s Hs. destruct c as [xs|xs]; cbn [astype_U] in Hs;
    apply in_map_iff in Hs as (x & <- & _); apply U_cast_fits.
Qed.

Lemma shaped_np_empty2 (np : numpy_rt) (n m : nat) :
  shaped n m (np_empty2 np n m).
Proof.
  unfold shaped, np_empty2. rewrite length_map, length_seq.
  split; [reflexivity|]. apply Forall_forall. intros row Hrow.
  apply in_map_iff in Hrow as (i & <- & _).
  rewrite length_map, length_seq. reflexivity.
Qed.

(** A column assignment keeps the shape of the array. *)
Lemma setitem_col_shaped (np : numpy_rt) (n m k : nat)
  (arr arr' : list (list float)) (c : column) :
  shaped n m arr ->
  setitem_col np arr k c = Ok arr' ->
  shaped n m arr'.
Proof.
  intros [Hlen Hall] H. unfold setitem_col in H.
  destruct (astype_float np c) as [vs|e]; cbn [Res.bind] in H;
    [|discriminate].
  destruct (broadcast_to (length arr) vs) as [ws|e] eqn:E;
    cbn [Res.bind] in H; [|discriminate].
  injection H as <-. apply broadcast_to_inv in E as [Hws _].
  split.
  - rewrite length_map, length_combine, Hws, Nat.min_id. exact Hlen.
  - apply Forall_forall. intros row Hrow.
    apply in_map_iff in Hrow as ([r v] & <- & Hin).
    apply in_combine_l in Hin. cbn [fst snd].
    rewrite length_list_set. rewrite Forall_forall in Hall.
    apply Hall. exact Hin.
Qed.

(** X6: whenever [generate_features_targets] returns, whatever the
    catalogue held, the feature matrix has one row of exactly 13 cells
    per row of the catalogue, there is one target per row, and every
    target fits its [<U20] cell: it has at most 20 characters and no NUL
    at its end, so that storing the targets in a [<U20] array once more
    changes nothing. *)
Theorem generate_features_targets_shapes (np : numpy_rt) (data : recarray)
  (features : list (list float)) (targets : list str) :
  generate_features_targets np data = Ok (features, targets) ->
  shaped (nrows data) 13 features
  /\ length targets = nrows data
  /\ Forall fits_U20 targets
  /\ map (U_cast 20) targets = targets.
Proof.
  unfold generate_features_targets.
  pose proof (shaped_np_empty2 np (nrows data) 13) as S0.
  repeat match goal with
         | |- Res.bind ?r _ = Ok _ -> _ =>
             let E := fresh "E" in
             destruct r eqn:E; cbn [Res.bind]; [|discriminate]
         end.
  intros H. injection H as <- <-.
  repeat match goal with
         | S : shaped _ _ ?a, E : setitem_col _ ?a _ _ = Ok _ |- _ =>
             pose proof (setitem_col_shaped S E); clear S E
         end.
  split; [assumption|].
  match goal with
  | E : setitem_all_U _ _ _ _ = Ok ?t |- _ =>
      unfold setitem_all_U in E; apply broadcast_to_inv in E as [Hlen Hin];
      assert (Hfits : Forall fits_U20 t)
        by (apply Forall_forall; intros s Hs;
            eapply astype_U_fits; apply Hin, Hs)
  end.
  unfold np_empty_U in Hlen. rewrite length_map, length_seq in Hlen.
  split; [exact Hlen|]. split; [exact Hfits|].
  clear - Hfits. induction Hfits as [|s l [Hs1 Hs2] _ IH]; [reflexivity|].
  cbn [map]. rewrite IH. f_equal.
  rewrite U_cast_firstn, firstn_all2 by exact Hs1. exact Hs2.
Qed.

Lemma generate_features_targets_shapes_witness :
  shaped 3 13 (map (feature_row example_columns) [0; 1; 2]%nat)
  /\ length (map (U_cast 20) (col_class example_columns)) = 3%nat
  /\ Forall fits_U20 (map (U_cast 20) (col_class example_columns))
  /\ map (U_cast 20) (map (U_cast 20) (col_class example_columns))
     = map (U_cast 20) (col_class example_columns).
Proof.
  apply (@generate_features_targets_shapes example_numpy example_catalogue).
  vm_compute. reflexivity.
Defined.

(** X7: two class labels that agree on their first 20 characters come
    back as the same target: classes that differ only after the
    twentieth character are merged. *)
Theorem generate_features_targets_merges_long_labels (np : numpy_rt)
  (data : recarray) (g : galaxy_columns) (i j : nat) :
  has_schema data g ->
  (i < nrows data)%nat ->
  (j < nrows data)%nat ->
  firstn 20 (nth i (col_class g) []) = firstn 20 (nth j (col_class g) []) ->
  exists features targets,
    generate_features_targets np data = Ok (features, targets)
    /\ nth i targets [] = nth j targets [].
Proof.
  intros Hs Hi Hj Heq. pose proof Hs as [[_ Lc] _].
  exists (map (feature_row g) (seq 0 (nrows data))),
         (map (U_cast 20) (col_class g)).
  split; [apply generate_features_targets_closed_form; exact Hs|].
  assert (Hnth : forall k, (k < nrows data)%nat ->
                 nth k (map (U_cast 20) (col_class g)) []
                 = U_load (firstn 20 (nth k (col_class g) []))).
  { intros k Hk.
    rewrite (nth_indep (map (U_cast 20) (col_class g)) [] (U_cast 20 []))
      by (rewrite length_map, Lc; exact Hk).
    rewrite map_nth. apply U_cast_firstn. }
  rewrite !Hnth by assumption. rewrite Heq. reflexivity.
Qed.

Lemma generate_features_targets_merges_long_labels_witness :
  exists features targets,
    generate_features_targets example_numpy (catalogue_of 2 long_label_columns)
    = Ok (features, targets)
    /\ nth 0 targets [] = nth 1 targets [].
Proof.
  apply (@generate_features_targets_merges_long_labels example_numpy
           (catalogue_of 2 long_label_columns) long_label_columns 0%nat 1%nat).
  - unfold has_schema, has_str_field, has_float_field.
    repeat split; reflexivity.
  - cbn [nrows catalogue_of]. lia.
  - cbn [nrows catalogue_of]. lia.
  - reflexivity.
Defined.

(* ===================================================================== *)
(** * The plot of a matrix without cells                                  *)
(* ===================================================================== *)

Lemma concat_row_normalize_nil (cm : list (list Z)) :
  concat cm = [] -> concat (row_normalize cm) = [].
Proof.
  induction cm as [|row cm IH]; [reflexivity|].
  cbn [concat]. intros H. apply app_eq_nil in H as [-> H].
  cbn [row_normalize map concat app]. apply IH. exact H.
Qed.

(** X9: [plot_confusion_matrix] does not guard [cm.max()].  On a matrix
    without cells (no rows, or rows without columns), normalised or not,
    it draws the empty image with its title, colour bar and ticks, prints
    the matrix, and then raises numpy's ValueError for the maximum of an
    empty array: no cell is written on and the axes get no labels. *)
Theorem plot_confusion_matrix_without_cells (rt : runtime)
  (cm : list (list Z)) (classes : list str) (normalize : bool)
  (title cmap : string) (h : list event) :
  quiet rt ->
  concat cm = [] ->
  plot_confusion_matrix rt cm classes normalize title cmap h
  = (h ++ plot_head cm classes normalize title cmap, Err zero_size_error).
Proof.
  intros Hq Hnone. rewrite (plot_confusion_matrix_quiet Hq).
  assert (Hmax : np_max (normalized_or_raw cm normalize) = Err zero_size_error).
  { destruct normalize; cbn [normalized_or_raw np_max].
    - rewrite (concat_row_normalize_nil Hnone). reflexivity.
    - rewrite Hnone. reflexivity. }
  rewrite Hmax. reflexivity.
Qed.

Lemma plot_confusion_matrix_without_cells_witness :
  plot_confusion_matrix example_runtime [[]; []] [] true "Confusion matrix"
    "Blues" [plt_figure]
  = ([plt_figure] ++ plot_head [[]; []] [] true "Confusion matrix" "Blues",
     Err zero_size_error).
Proof.
  apply (@plot_confusion_matrix_without_cells example_runtime [[]; []] []
           true "Confusion matrix" "Blues" [plt_figure]).
  - intros h e. reflexivity.
  - reflexivity.
Defined.

(* ===================================================================== *)
(** * The accuracy and the confusion matrix agree                         *)
(* ===================================================================== *)

Lemma map_nth_seq {A B} (f : A -> B) (d : A) (l : list A) :
  map (fun i => f (nth i l d)) (seq 0 (length l)) = map f l.
Proof.
  induction l as [|x l IH]; [reflexivity|].
  cbn [length seq map nth]. rewrite <- seq_shift, map_map.
  cbn [nth]. rewrite IH. reflexivity.
Qed.

Lemma sumZ_map_add {A} (a b : A -> Z) (l : list A) :
  sumZ (map (fun x => a x + b x) l) = sumZ (map a l) + sumZ (map b l).
Proof.
  unfold sumZ. induction l as [|x l IH]; cbn [map fold_right]; lia.
Qed.

Lemma sumZ_indicator_absent (c : bool) (t : str) (labels : list str) :
  ~ In t labels ->
  sumZ (map (fun l => Z.b2z (c && str_eqb t l)) labels) = 0.
Proof.
  unfold sumZ. induction labels as [|l labels IH]; intros Hin;
    cbn [map fold_right]; [reflexivity|].
  rewrite IH by (intros H; apply Hin; right; exact H).
  replace (str_eqb t l) with false
    by (symmetry; apply str_eqb_neq; intros ->; apply Hin; left; reflexivity).
  rewrite andb_false_r. reflexivity.
Qed.

(** Among labels without repetition, exactly one is the label [t]. *)
Lemma sumZ_indicator (c : bool) (t : str) (labels : list str) :
  NoDup labels -> In t labels ->
  sumZ (map (fun l => Z.b2z (c && str_eqb t l)) labels) = Z.b2z c.
Proof.
  intros Hnd. induction Hnd as [|l labels Hnotin Hnd IH]; intros Hin;
    [destruct Hin|].
  change (sumZ (map (fun l0 => Z.b2z (c && str_eqb t l0)) (l :: labels)))
    with (Z.b2z (c && str_eqb t l)
          + sumZ (map (fun l0 => Z.b2z (c && str_eqb t l0)) labels)).
  destruct (str_eq_dec t l) as [->|Hne].
  - rewrite sumZ_indicator_absent by exact Hnotin.
    rewrite str_eqb_refl, andb_true_r. lia.
  - destruct Hin as [Heq|Hin]; [congruence|].
    rewrite IH by exact Hin.
    replace (str_eqb t l) with false by (symmetry; apply str_eqb_neq; exact Hne).
    rewrite andb_false_r. reflexivity.
Qed.

Lemma count_pairs_cons (t p : str) (s : str * str) (samples : list (str * str)) :
  Z.of_nat (count_pairs t p (s :: samples))
  = Z.b2z (str_eqb (fst s) t && str_eqb (snd s) p)
    + Z.of_nat (count_pairs t p samples).
Proof.
  unfold count_pairs. cbn [filter].
  destruct (str_eqb (fst s) t && str_eqb (snd s) p)%bool;
    cbn [length Z.b2z]; lia.
Qed.

(** Summed over the labels, the diagonal counts are the samples whose
    two labels are equal. *)
Lemma sumZ_diagonal_counts (labels : list str) (samples : list (str * str)) :
  NoDup labels ->
  (forall s, In s samples -> In (fst s) labels) ->
  sumZ (map (fun l => Z.of_nat (count_pairs l l samples)) labels)
  = Z.of_nat (length (filter (fun s => str_eqb (fst s) (snd s)) samples)).
Proof.
  intros Hnd. induction samples as [|s samples IH]; intros Hin.
  - unfold count_pairs. cbn [filter length]. unfold sumZ. clear Hnd Hin.
    induction labels as [|l labels IHl]; cbn [map fold_right]; [reflexivity|].
    rewrite IHl. reflexivity.
  - rewrite (map_ext _ _ (fun l => count_pairs_cons l l s samples)).
    rewrite sumZ_map_add, IH by (intros s' Hs'; apply Hin; right; exact Hs').
    rewrite (map_ext _ (fun l => Z.b2z (str_eqb (fst s) (snd s)
                                        && str_eqb (fst s) l))).
    + rewrite sumZ_indicator by (try assumption; apply Hin; left; reflexivity).
      cbn [filter]. destruct (str_eqb (fst s) (snd s)); cbn [length Z.b2z]; lia.
    + intros l. f_equal.
      destruct (str_eq_dec (fst s) l) as [<-|Hne].
      * rewrite str_eqb_refl, andb_true_r. cbn [andb].
        apply str_eqb_sym.
      * replace (str_eqb (fst s) l) with false
          by (symmetry; apply str_eqb_neq; exact Hne).
        rewrite andb_false_r. reflexivity.
Qed.

(** The cells of the main script's confusion matrix, and its shape. *)
Lemma confusion_matrix_cells (rank : str -> N) (actual predicted : list str) :
  length predicted = length actual ->
  actual <> [] ->
  array_size_ok actual ->
  exists model_cm,
    confusion_matrix actual predicted (list_of_set rank actual) = Ok model_cm
    /\ square (length (list_of_set rank actual)) model_cm
    /\ (forall i j,
          (i < length (list_of_set rank actual))%nat ->
          (j < length (list_of_set rank actual))%nat ->
          mcell model_cm i j
          = Z.of_nat (count_pairs (nth i (list_of_set rank actual) [])
                        (nth j (list_of_set rank actual) [])
                        (combine actual predicted))).
Proof.
  intros Hlen Hne Hsz.
  destruct (list_of_set_spec rank actual) as (Hnd & Hin & Hn).
  eexists. split; [apply confusion_matrix_runs; assumption|].
  rewrite <- Hn. split; [apply square_fold_count, square_zeros|].
  intros i j Hi Hj.
  rewrite (mcell_fold_count Hnd eq_refl) by
    (try assumption; try apply square_zeros;
     intros i' j' _ _; rewrite mcell_zeros;
     unfold array_size_ok in Hsz;
     rewrite length_combine, Hlen, Nat.min_id; lia).
  rewrite mcell_zeros. reflexivity.
Qed.

(** X10: the two figures the main script reports agree.  The diagonal of
    the confusion matrix it plots sums to the number of correctly
    predicted samples, so the accuracy it prints is that diagonal sum
    divided by the number of samples. *)
Theorem accuracy_is_diagonal_over_samples (rank : str -> N)
  (actual predicted : list str) :
  length predicted = length actual ->
  actual <> [] ->
  array_size_ok actual ->
  exists model_cm,
    confusion_matrix actual predicted (list_of_set rank actual) = Ok model_cm
    /\ diagonal_sum model_cm = Z.of_nat (equal_positions actual predicted)
    /\ calculate_accuracy predicted actual
       = Ok (NpFloat64 (float_of_Z (diagonal_sum model_cm)
                        / float_of_Z (Z.of_nat (length actual)))).
Proof.
  intros Hlen Hne Hsz.
  destruct (list_of_set_spec rank actual) as (Hnd & Hin & Hn).
  destruct (confusion_matrix_cells rank Hlen Hne Hsz)
    as (model_cm & Hcm & [Hrows _] & Hcells).
  assert (Hdiag : diagonal_sum model_cm
                  = Z.of_nat (equal_positions actual predicted)).
  { unfold diagonal_sum. rewrite Hrows.
    rewrite (map_ext_in _
               (fun i => Z.of_nat
                           (count_pairs (nth i (list_of_set rank actual) [])
                              (nth i (list_of_set rank actual) [])
                              (combine actual predicted))))
      by (intros i Hi; apply in_seq in Hi; apply Hcells; lia).
    rewrite (map_nth_seq (fun l => Z.of_nat (count_pairs l l (combine actual predicted)))).
    rewrite sumZ_diagonal_counts.
    - unfold equal_positions.
      rewrite (positions_combine str_eqb [] []) by congruence. reflexivity.
    - exact Hnd.
    - intros s Hs. apply Hin. destruct s as [a p].
      apply in_combine_l in Hs. exact Hs. }
  exists model_cm. split; [exact Hcm|]. split; [exact Hdiag|].
  rewrite Hdiag. unfold calculate_accuracy, np_equal.
  rewrite broadcast2_same_length by congruence. cbn [Res.bind].
  rewrite py_sum_count.
  - rewrite length_filter_map. unfold equal_positions.
    rewrite (positions_combine str_eqb [] []) by congruence.
    reflexivity.
  - destruct actual as [|a l]; [congruence|].
    destruct predicted; cbn [length] in Hlen; [discriminate|].
    cbn [combine map]. discriminate.
  - unfold array_size_ok in *.
    rewrite length_map, length_combine, Hlen, Nat.min_id. exact Hsz.
Qed.

Lemma accuracy_is_diagonal_over_samples_witness :
  exists model_cm,
    confusion_matrix
      [chars_of "spiral"; chars_of "elliptical"; chars_of "merger"]
      [chars_of "spiral"; chars_of "elliptical"; chars_of "elliptical"]
      (list_of_set (fun s => N.of_nat (length s))
         [chars_of "spiral"; chars_of "elliptical"; chars_of "merger"])
    = Ok model_cm
    /\ diagonal_sum model_cm = 2
    /\ calculate_accuracy
         [chars_of "spiral"; chars_of "elliptical"; chars_of "elliptical"]
         [chars_of "spiral"; chars_of "elliptical"; chars_of "merger"]
       = Ok (NpFloat64 (float_of_Z (diagonal_sum model_cm) / float_of_Z 3)).
Proof.
  apply (@accuracy_is_diagonal_over_samples (fun s => N.of_nat (length s))
           [chars_of "spiral"; chars_of "elliptical"; chars_of "merger"]
           [chars_of "spiral"; chars_of "elliptical"; chars_of "elliptical"]).
  - reflexivity.
  - discriminate.
  - unfold array_size_ok. cbn [length]. lia.
Defined.

Lemma sum_int64_plain (row : list Z) :
  forall acc,
    0 <= acc -> Forall (fun x => 0 <= x) row -> acc + sumZ row < 2 ^ 63 ->
    fold_left (fun a x => wrap64 (a + x)) row acc = acc + sumZ row.
Proof.
  unfold sumZ.
  induction row as [|x row IH]; intros acc Hacc Hall Hb;
    cbn [fold_left fold_right] in *; [lia|].
  inversion Hall as [|? ? Hx Hrow]; subst.
  assert (Hs : 0 <= fold_right Z.add 0 row).
  { clear - Hrow. induction Hrow; cbn [fold_right]; lia. }
  rewrite wrap64_small by lia. rewrite IH by (try assumption; lia). lia.
Qed.

Lemma square_row_cells (n : nat) (m : list (list Z)) (i : nat) :
  square n m -> (i < n)%nat ->
  nth i m [] = map (fun j => mcell m i j) (seq 0 n).
Proof.
  intros Hsq Hi. unfold mcell.
  rewrite <- (square_row Hsq Hi).
  rewrite (map_nth_seq (fun x => x) 0). symmetry. apply map_id.
Qed.

Lemma length_filter_fst_combine {A B} (f : A -> bool) (xs : list A) (ys : list B) :
  length xs = length ys ->
  length (filter (fun s => f (fst s)) (combine xs ys)) = length (filter f xs).
Proof.
  revert ys. induction xs as [|x xs IH]; intros [|y ys] Hlen;
    cbn [length] in Hlen; try discriminate; [reflexivity|].
  cbn [combine filter fst]. destruct (f x); cbn [length]; rewrite IH by congruence;
    reflexivity.
Qed.

(** Summed over the labels, the counts of a row are the samples of its
    class, as long as every prediction is one of the labels. *)
Lemma sumZ_row_counts (labels : list str) (t : str) (samples : list (str * str)) :
  NoDup labels ->
  (forall s, In s samples -> In (snd s) labels) ->
  sumZ (map (fun l => Z.of_nat (count_pairs t l samples)) labels)
  = Z.of_nat (length (filter (fun s => str_eqb (fst s) t) samples)).
Proof.
  intros Hnd. induction samples as [|s samples IH]; intros Hin.
  - unfold count_pairs. cbn [filter length]. unfold sumZ. clear Hnd Hin.
    induction labels as [|l labels IHl]; cbn [map fold_right]; [reflexivity|].
    rewrite IHl. reflexivity.
  - rewrite (map_ext _ _ (fun l => count_pairs_cons t l s samples)).
    rewrite sumZ_map_add, IH by (intros s' Hs'; apply Hin; right; exact Hs').
    rewrite sumZ_indicator by (try assumption; apply Hin; left; reflexivity).
    cbn [filter]. destruct (str_eqb (fst s) t); cbn [length Z.b2z]; lia.
Qed.

(** X11: when every predicted label is one of the actual labels (as the
    predictions of an estimator fitted on them are), each row of the main
    script's confusion matrix sums to the number of samples of its class,
    which is at least one: the row sums by which [normalize=True] would
    divide are never zero on this matrix. *)
Theorem confusion_matrix_row_sums (rank : str -> N)
  (actual predicted : list str) :
  length predicted = length actual ->
  actual <> [] ->
  array_size_ok actual ->
  (forall p, In p predicted -> In p actual) ->
  exists model_cm,
    confusion_matrix actual predicted (list_of_set rank actual) = Ok model_cm
    /\ (forall i,
          (i < n_distinct actual)%nat ->
          sum_int64 (nth i model_cm [])
          = Z.of_nat (class_size actual (nth i (list_of_set rank actual) []))
          /\ 1 <= sum_int64 (nth i model_cm [])).
Proof.
  intros Hlen Hne Hsz Hpred.
  destruct (list_of_set_spec rank actual) as (Hnd & Hin & Hn).
  destruct (confusion_matrix_cells rank Hlen Hne Hsz)
    as (model_cm & Hcm & Hsq & Hcells).
  exists model_cm. split; [exact Hcm|].
  intros i Hi. rewrite <- Hn in Hi.
  set (labels := list_of_set rank actual) in *.
  set (t := nth i labels []).
  assert (Hsum : sumZ (nth i model_cm [])
                 = Z.of_nat (class_size actual t)).
  { rewrite (square_row_cells Hsq Hi).
    rewrite (map_ext_in _
               (fun j => Z.of_nat (count_pairs t (nth j labels [])
                                     (combine actual predicted))))
      by (intros j Hj; apply in_seq in Hj; apply Hcells; lia).
    rewrite (map_nth_seq
               (fun l => Z.of_nat (count_pairs t l (combine actual predicted)))).
    rewrite sumZ_row_counts.
    - unfold class_size. f_equal.
      apply (length_filter_fst_combine (fun a => str_eqb a t)). congruence.
    - exact Hnd.
    - intros [a p] Hs. apply in_combine_r in Hs. cbn [snd].
      apply Hin, Hpred, Hs. }
  assert (Hpos : (1 <= class_size actual t)%nat).
  { unfold class_size.
    assert (Ht : In t (filter (fun a => str_eqb a t) actual)).
    { apply filter_In. split; [apply Hin; apply nth_In; exact Hi|].
      apply str_eqb_refl. }
    destruct (filter (fun a => str_eqb a t) actual); [destruct Ht|].
    cbn [length]. lia. }
  assert (Hle : (class_size actual t <= length actual)%nat)
    by apply length_filter_le.
  assert (Hplain : sum_int64 (nth i model_cm []) = sumZ (nth i model_cm [])).
  { unfold sum_int64. rewrite sum_int64_plain; [lia|lia| |].
    - rewrite (square_row_cells Hsq Hi). apply Forall_forall.
      intros x Hx. apply in_map_iff in Hx as (j & <- & Hj).
      apply in_seq in Hj. rewrite Hcells by lia. lia.
    - rewrite Hsum. unfold array_size_ok in Hsz. lia. }
  rewrite Hplain, Hsum. split; [reflexivity|lia].
Qed.

Lemma confusion_matrix_row_sums_witness :
  exists model_cm,
    confusion_matrix
      [chars_of "spiral"; chars_of "elliptical"; chars_of "merger"]
      [chars_of "spiral"; chars_of "elliptical"; chars_of "elliptical"]
      (list_of_set (fun s => N.of_nat (length s))
         [chars_of "spiral"; chars_of "elliptical"; chars_of "merger"])
    = Ok model_cm
    /\ (forall i,
          (i < 3)%nat ->
          sum_int64 (nth i model_cm [])
          = Z.of_nat
              (class_size
                 [chars_of "spiral"; chars_of "elliptical"; chars_of "merger"]
                 (nth i (list_of_set (fun s => N.of_nat (length s))
                           [chars_of "spiral"; chars_of "elliptical";
                            chars_of "merger"]) []))
          /\ 1 <= sum_int64 (nth i model_cm [])).
Proof.
  apply (@confusion_matrix_row_sums (fun s => N.of_nat (length s))
           [chars_of "spiral"; chars_of "elliptical"; chars_of "merger"]
           [chars_of "spiral"; chars_of "elliptical"; chars_of "elliptical"]).
  - reflexivity.
  - discriminate.
  - unfold array_size_ok. cbn [length]. lia.
  - intros p Hp. cbn [In] in *. tauto.
Defined.

(* ===================================================================== *)
(** * Normalising a matrix with an empty class                            *)
(* ===================================================================== *)

Lemma Prim2SF_nan (x : float) : is_nan x = true -> Prim2SF x = S754_nan.
Proof. intros H. unfold Prim2SF. rewrite H. reflexivity. Qed.

(** Nothing exceeds a [nan]. *)
Lemma nan_ltb_false (t v : float) : is_nan t = true -> (t <? v)%float = false.
Proof.
  intros H. rewrite ltb_spec, (Prim2SF_nan H). reflexivity.
Qed.

Lemma is_nan_div (r y : float) : is_nan r = true -> is_nan (r / y) = true.
Proof.
  intros H. unfold is_nan. rewrite eqb_spec, div_spec, (Prim2SF_nan H).
  reflexivity.
Qed.

Lemma is_nan_fmax_l (a b : float) : is_nan a = true -> is_nan (fmax_nan a b) = true.
Proof. intros H. unfold fmax_nan. rewrite H. exact H. Qed.

Lemma is_nan_fmax_r (a b : float) : is_nan b = true -> is_nan (fmax_nan a b) = true.
Proof.
  intros H. unfold fmax_nan. destruct (is_nan a) eqn:Ea; [exact Ea|].
  rewrite H. exact H.
Qed.

(** The maximum of cells of which one is [nan] is [nan]. *)
Lemma is_nan_fold_fmax (t : list float) :
  forall x,
    is_nan x = true \/ (exists y, In y t /\ is_nan y = true) ->
    is_nan (fold_left fmax_nan t x) = true.
Proof.
  induction t as [|z t IH]; intros x H; cbn [fold_left].
  - destruct H as [H|(y & [] & _)]. exact H.
  - apply IH. destruct H as [H|(y & [->|Hy] & Hn)].
    + left. apply is_nan_fmax_l. exact H.
    + left. apply is_nan_fmax_r. exact Hn.
    + right. exists y. split; assumption.
Qed.

Lemma sum_int64_zeros (row : list Z) :
  Forall (fun x => x = 0) row -> sum_int64 row = 0.
Proof.
  unfold sum_int64. intros H. induction H as [|x row -> _ IH];
    cbn [fold_left]; [reflexivity|]. exact IH.
Qed.

(** Normalising a non-empty row of zeros leaves a [nan] in the matrix. *)
Lemma row_normalize_zero_row (cm : list (list Z)) (i : nat) :
  (i < length cm)%nat ->
  nth i cm [] <> [] ->
  Forall (fun x => x = 0) (nth i cm []) ->
  exists y, In y (concat (row_normalize cm)) /\ is_nan y = true.
Proof.
  intros Hi Hne Hz.
  exists (float_of_Z 0 / float_of_Z 0)%float. split; [|reflexivity].
  apply in_concat.
  exists (map (fun x => (float_of_Z x / float_of_Z (sum_int64 (nth i cm [])))%float)
              (nth i cm [])).
  split.
  - unfold row_normalize.
    apply (in_map (fun row =>
                     map (fun x => (float_of_Z x / float_of_Z (sum_int64 row))%float)
                         row)).
    apply nth_In. exact Hi.
  - rewrite (sum_int64_zeros Hz).
    destruct (nth i cm []) as [|x row]; [congruence|].
    inversion Hz; subst. left. reflexivity.
Qed.

(** X12: [normalize=True] divides by the row sums without a guard.  If
    some row of the matrix is non-empty and all zero (a class without
    samples), its cells become [nan], so does [cm.max()], and no cell
    compares greater than the threshold: the function raises nothing,
    but every annotation of the plot, on every row, is black. *)
Theorem normalize_with_empty_class_is_all_black (rt : runtime)
  (cm : list (list Z)) (classes : list str) (title cmap : string)
  (h : list event) (i : nat) :
  quiet rt ->
  (i < length cm)%nat ->
  nth i cm [] <> [] ->
  Forall (fun x => x = 0) (nth i cm []) ->
  plot_confusion_matrix rt cm classes true title cmap h
  = (h ++ plot_head cm classes true title cmap
       ++ map (fun ij =>
                 plt_text (Z.of_nat (snd ij)) (Z.of_nat (fst ij))
                   (item (FloatArr (row_normalize cm)) (fst ij) (snd ij))
                   "center" "black")
              (cells (FloatArr (row_normalize cm)))
       ++ plot_tail,
     Ok tt).
Proof.
  intros Hq Hi Hne Hz. rewrite (plot_confusion_matrix_quiet Hq).
  cbn [normalized_or_raw].
  destruct (row_normalize_zero_row Hi Hne Hz) as (y & Hy & Hnan).
  assert (Hmax : exists r, np_max (FloatArr (row_normalize cm)) = Ok (NpFloat64 r)
                           /\ is_nan r = true).
  { cbn [np_max]. destruct (concat (row_normalize cm)) as [|x t]; [destruct Hy|].
    eexists. split; [reflexivity|].
    apply is_nan_fold_fmax. destruct Hy as [->|Hy].
    - left. exact Hnan.
    - right. exists y. split; assumption. }
  destruct Hmax as (r & Hmax & Hr). rewrite Hmax.
  do 2 f_equal. f_equal. f_equal. apply map_ext. intros ij.
  unfold annotation, thresh_of, scalar_gt. rewrite Hmax. cbn [to_float].
  rewrite nan_ltb_false by (apply is_nan_div; exact Hr). reflexivity.
Qed.

Lemma normalize_with_empty_class_is_all_black_witness :
  plot_confusion_matrix example_runtime [[2; 1]; [0; 0]]
    [chars_of "spiral"; chars_of "merger"] true "Confusion matrix" "Blues" []
  = ([] ++ plot_head [[2; 1]; [0; 0]] [chars_of "spiral"; chars_of "merger"]
             true "Confusion matrix" "Blues"
        ++ map (fun ij =>
                  plt_text (Z.of_nat (snd ij)) (Z.of_nat (fst ij))
                    (item (FloatArr (row_normalize [[2; 1]; [0; 0]]))
                       (fst ij) (snd ij))
                    "center" "black")
               (cells (FloatArr (row_normalize [[2; 1]; [0; 0]])))
        ++ plot_tail,
     Ok tt).
Proof.
  apply (@normalize_with_empty_class_is_all_black example_runtime
           [[2; 1]; [0; 0]] [chars_of "spiral"; chars_of "merger"]
           "Confusion matrix" "Blues" [] 1%nat).
  - intros h e. reflexivity.
  - cbn [length]. lia.
  - discriminate.
  - repeat constructor.
Defined.

(* ===================================================================== *)
(** * What [rf_predict_actual] hands on                                   *)
(* ===================================================================== *)

(** X13: on a catalogue with the expected columns [rf_predict_actual]
    calls the estimator exactly once, with the requested number of trees,
    ten folds, the thirteen-column feature rows and the labels cut to 20
    characters; whatever the estimator answers, the second component it
    returns is those labels, and an exception of the estimator is the
    exception of the function.  Nothing else is logged, whatever the
    earlier history is. *)
Theorem rf_predict_actual_calls_the_estimator_once (rt : runtime)
  (data : recarray) (g : galaxy_columns) (n : Z) (h : list event) :
  has_schema data g ->
  let features := map (feature_row g) (seq 0 (nrows data)) in
  let targets := map (U_cast 20) (col_class g) in
  let rfc := {| n_estimators := n |} in
  rf_predict_actual rt data n h
  = (h ++ [cross_val_predict rfc features targets 10],
     match rt_cross_val_predict rt rfc features targets 10 with
     | Ok predicted => Ok (predicted, targets)
     | Err e => Err e
     end).
Proof.
  intros Hs features targets rfc. unfold rf_predict_actual.
  rewrite (generate_features_targets_closed_form (rt_numpy rt) Hs).
  rewrite bind_lift_ok. fold features targets rfc.
  unfold Run.bind, Run.ask, Run.ret.
  destruct (rt_cross_val_predict rt rfc features targets 10); reflexivity.
Qed.

Lemma rf_predict_actual_calls_the_estimator_once_witness :
  rf_predict_actual example_runtime example_catalogue 50 []
  = ([] ++ [cross_val_predict {| n_estimators := 50 |}
              (map (feature_row example_columns)
                   (seq 0 (nrows example_catalogue)))
              (map (U_cast 20) (col_class example_columns)) 10],
     match rt_cross_val_predict example_runtime {| n_estimators := 50 |}
             (map (feature_row example_columns)
                  (seq 0 (nrows example_catalogue)))
             (map (U_cast 20) (col_class example_columns)) 10 with
     | Ok predicted =>
         Ok (predicted, map (U_cast 20) (col_class example_columns))
     | Err e => Err e
     end).
Proof.
  apply (@rf_predict_actual_calls_the_estimator_once example_runtime
           example_catalogue example_columns 50 []).
  unfold has_schema, has_str_field, has_float_field.
  repeat split; reflexivity.
Defined.
